(** * OwlBoard web front end: the client-side synchronisation core

    A shallow embedding of the comment store ([useComments]), the two
    stream hooks ([useCommentsWebSocket], [useChatWebSocket]) and the REST
    wrappers ([CommentsApiService], [ChatApiService]), followed by the
    properties of the specification that concern them.

    Conventions.
    - A JavaScript value that may be [undefined] is an [option]; [None] is
      [undefined].
    - A JavaScript string is the sequence of its UTF-16 code units
      ([Js.jsstring]). A string that is only compared, carried or
      concatenated is written as a Rocq string: it stands for the string
      with the same code units, all below 256 ([Js.units]).
    - Numbers that are only carried (coordinates, timestamps, status codes,
      delays) are integers. A status code and a timestamp render as their
      decimal digits ([Js.show]); the rendering of a coordinate, which may
      be any number, is a parameter.
    - React state is passed explicitly: a [setX(prev => ...)] updater is a
      function from the previous state to the next one, and updaters run in
      the order in which they were enqueued.
    - Whatever the network answers is an argument of the call that awaits
      it. *)

From Stdlib Require Import List String Ascii ZArith Lia Bool DecimalString
  DecimalZ.
Import ListNotations.
Open Scope string_scope.

Set Warnings "-register-all".

(* ================================================================== *)
(** * JavaScript primitives used by the sources *)
(* ================================================================== *)

Module Js.

(** [a === b] on values of type [string | undefined]. *)
Definition strict_eq (a b : option string) : bool :=
  match a, b with
  | None, None => true
  | Some s, Some t => (s =? t)%string
  | _, _ => false
  end.

(** A value typed [any] that the sources treat as a string and only
    compare and carry: a string, [undefined], or a value of another type
    ([null], a number, a boolean, an array, an object). *)
Inductive any_string : Type :=
| AString (s : string)
| AUndefined
| AOther.

(** [a === b] where [a] is a [string | undefined] and [b] is such a value:
    a value of another type is identical to neither. *)
Definition strict_eq_any (a : option string) (b : any_string) : bool :=
  match b with
  | AString s => strict_eq a (Some s)
  | AUndefined => strict_eq a None
  | AOther => false
  end.

(** Truthiness of a [string | undefined]: [undefined] and [""] are falsy. *)
Definition truthy (a : option string) : bool :=
  match a with
  | None => false
  | Some s => negb (s =? "")%string
  end.

(** [a || b] where [b] is a string. *)
Definition or_else (a : option string) (b : string) : string :=
  match a with
  | Some s => if (s =? "")%string then b else s
  | None => b
  end.

(** Template-literal rendering of an integer. *)
Definition show (z : Z) : string := NilZero.string_of_int (Z.to_int z).

(** [Array.prototype.join]. *)
Definition join (sep : string) (l : list string) : string :=
  String.concat sep l.

(** A UTF-16 code unit, and a string as the sequence of its code units. *)
Definition code_unit : Type := N.

Definition jsstring : Type := list code_unit.

(** The string a Rocq string stands for. *)
Definition units (s : string) : jsstring :=
  map N_of_ascii (list_ascii_of_string s).

Coercion units : string >-> jsstring.

(** The code units that [String.prototype.trim] strips: the white space
    and line terminators of ECMAScript, all in the basic plane. TAB, LF,
    VT, FF, CR, SPACE, NBSP, U+1680, U+2000 to U+200A, U+2028, U+2029,
    U+202F, U+205F, U+3000 and U+FEFF. *)
Definition is_whitespace (c : code_unit) : bool :=
  ((9 <=? c) && (c <=? 13) || (c =? 32) || (c =? 160) || (c =? 5760) ||
   (8192 <=? c) && (c <=? 8202) || (c =? 8232) || (c =? 8233) ||
   (c =? 8239) || (c =? 8287) || (c =? 12288) || (c =? 65279))%N.

Fixpoint trimStart (s : jsstring) : jsstring :=
  match s with
  | [] => []
  | c :: r => if is_whitespace c then trimStart r else s
  end.

Fixpoint trimEnd (s : jsstring) : jsstring :=
  match s with
  | [] => []
  | c :: r =>
      match trimEnd r with
      | [] => if is_whitespace c then [] else [c]
      | r' => c :: r'
      end
  end.

Definition trim (s : jsstring) : jsstring := trimEnd (trimStart s).

Fixpoint all_whitespace (s : jsstring) : bool :=
  match s with
  | [] => true
  | c :: r => is_whitespace c && all_whitespace r
  end.

(** [!s]: only the empty string is falsy. *)
Definition is_empty (s : jsstring) : bool :=
  match s with
  | [] => true
  | _ :: _ => false
  end.

(** Thrown values. *)
Inductive exn : Type :=
| Error (message : string)
| TypeError
| SyntaxError
| InvalidStateError.

(** The settlement of a promise, or the completion of a call that may
    throw. *)
Inductive outcome (A : Type) : Type :=
| Resolved (a : A)
| Rejected (e : exn).
Arguments Resolved {A} a.
Arguments Rejected {A} e.

(** Values handed to [JSON.stringify]. *)
Inductive json : Type :=
| JNull
| JBool (b : bool)
| JNum (z : Z)
| JStr (s : jsstring)
| JArr (l : list json)
| JObj (fields : list (string * json)).

End Js.

(* ================================================================== *)
(** * HTTP responses as the wrappers read them *)
(* ================================================================== *)

Module Http.

(** A JSON value of an error body. A number is given by what the wrappers
    observe of it: whether it is zero, and how a template literal renders
    it. *)
Inductive body : Type :=
| BNull
| BBool (b : bool)
| BNum (zero : bool) (text : string)
| BStr (s : string)
| BArr (l : list body)
| BObj (fields : list (string * body)).

(** The member [key] of an object given by its members; of two members
    with the same key [JSON.parse] keeps the later. [None] is
    [undefined]. *)
Fixpoint member (key : string) (fields : list (string * body)) : option body :=
  match fields with
  | [] => None
  | (k, v) :: rest =>
      match member key rest with
      | Some w => Some w
      | None => if (k =? key)%string then Some v else None
      end
  end.

(** [v.detail] and [v.msg] on a parsed value: reading a member of [null]
    throws; a value that is not an object has neither member. *)
Definition get (key : string) (v : body) : Js.outcome (option body) :=
  match v with
  | BNull => Js.Rejected Js.TypeError
  | BObj fields => Js.Resolved (member key fields)
  | _ => Js.Resolved None
  end.

(** Truthiness: [undefined], [null], [false], zero and [""] are falsy. *)
Definition is_truthy (v : option body) : bool :=
  match v with
  | None | Some BNull => false
  | Some (BBool b) => b
  | Some (BNum zero _) => negb zero
  | Some (BStr s) => negb (s =? "")%string
  | Some (BArr _) | Some (BObj _) => true
  end.

(** The elements of an array as [Array.prototype.join] renders them: a
    [null] element as the empty string, any other by [render]. *)
Definition rendered_elements (render : body -> Js.outcome string)
  : list body -> Js.outcome (list string) :=
  fix elements (l : list body) : Js.outcome (list string) :=
    match l with
    | [] => Js.Resolved []
    | e :: r =>
        match match e with
              | BNull => Js.Resolved ""
              | _ => render e
              end, elements r with
        | Js.Resolved x, Js.Resolved xs => Js.Resolved (x :: xs)
        | Js.Rejected err, _ => Js.Rejected err
        | _, Js.Rejected err => Js.Rejected err
        end
    end.

(** The conversion to a string of a template literal and of [join]. An
    array renders as its elements joined by [","]. An object renders as
    ["[object Object]"], unless it has a member [toString], which is not
    callable: the conversion then throws. *)
Fixpoint to_string (v : body) : Js.outcome string :=
  match v with
  | BNull => Js.Resolved "null"
  | BBool true => Js.Resolved "true"
  | BBool false => Js.Resolved "false"
  | BNum _ text => Js.Resolved text
  | BStr s => Js.Resolved s
  | BArr l =>
      match rendered_elements to_string l with
      | Js.Resolved xs => Js.Resolved (Js.join "," xs)
      | Js.Rejected err => Js.Rejected err
      end
  | BObj fields =>
      match member "toString" fields with
      | Some _ => Js.Rejected Js.TypeError
      | None => Js.Resolved "[object Object]"
      end
  end.

(** [l.map(e => e.msg)]. *)
Fixpoint map_msg (l : list body) : Js.outcome (list (option body)) :=
  match l with
  | [] => Js.Resolved []
  | e :: r =>
      match get "msg" e, map_msg r with
      | Js.Resolved m, Js.Resolved ms => Js.Resolved (m :: ms)
      | Js.Rejected err, _ => Js.Rejected err
      | _, Js.Rejected err => Js.Rejected err
      end
  end.

(** [l.join(sep)]: [undefined] and [null] elements render as the empty
    string. *)
Fixpoint join_values (sep : string) (l : list (option body))
  : Js.outcome string :=
  match l with
  | [] => Js.Resolved ""
  | e :: r =>
      match match e with
            | None | Some BNull => Js.Resolved ""
            | Some v => to_string v
            end, join_values sep r with
      | Js.Resolved x, Js.Resolved xs =>
          Js.Resolved (match r with [] => x | _ :: _ => x ++ sep ++ xs end)
      | Js.Rejected err, _ => Js.Rejected err
      | _, Js.Rejected err => Js.Rejected err
      end
  end.

(** A response. [json_data] is what [response.json()] resolves to on the
    success path, seen at the result type of the call ([None]: the promise
    rejects); [error_body] is what it resolves to on the error path
    ([None]: the promise rejects and the wrappers substitute [{}]). *)
Record Response (A : Type) : Type := mkResponse {
  status : Z;
  statusText : string;
  json_data : option A;
  error_body : option body
}.
Arguments mkResponse {A}.
Arguments status {A}.
Arguments statusText {A}.
Arguments json_data {A}.
Arguments error_body {A}.

(** Error bodies of the usual shapes: none that is JSON, [{detail: s}] and
    [{detail: [...]}]; and a validation entry [{msg: m}]. *)
Definition NoDetail : option body := None.

Definition DetailText (s : string) : option body :=
  Some (BObj [("detail", BStr s)]).



(** [response.ok]: the status is in the range 200-299. *)
Definition ok {A} (r : Response A) : bool :=
  ((200 <=? status r) && (status r <=? 299))%Z.

(** What [await fetch(...)] yields. *)
Inductive FetchOutcome (A : Type) : Type :=
| Responded (r : Response A)
| NetworkFailure (e : Js.exn).
Arguments Responded {A} r.
Arguments NetworkFailure {A} e.

(** [await response.json()] on the success path. *)
Definition json {A} (r : Response A) : Js.outcome A :=
  match json_data r with
  | Some a => Js.Resolved a
  | None => Js.Rejected Js.SyntaxError
  end.

(** [errorData.detail], where [errorData] is
    [await response.json().catch(() => ({}))]. *)
Definition errorData_detail {A} (r : Response A) : Js.outcome (option body) :=
  match error_body r with
  | None => Js.Resolved None
  | Some v => get "detail" v
  end.

(** [`${errorData.detail || response.statusText}`]. *)
Definition detail_or_statusText {A} (r : Response A) : Js.outcome string :=
  match errorData_detail r with
  | Js.Rejected err => Js.Rejected err
  | Js.Resolved d =>
      if is_truthy d then
        match d with
        | Some v => to_string v
        | None => Js.Resolved (statusText r)
        end
      else Js.Resolved (statusText r)
  end.

(** [`${(errorData.detail || []).map((e) => e.msg).join(', ')}`]: only an
    array has a [map]. *)
Definition validation_messages {A} (r : Response A) : Js.outcome string :=
  match errorData_detail r with
  | Js.Rejected err => Js.Rejected err
  | Js.Resolved d =>
      if is_truthy d then
        match d with
        | Some (BArr l) =>
            match map_msg l with
            | Js.Resolved ms => join_values ", " ms
            | Js.Rejected err => Js.Rejected err
            end
        | _ => Js.Rejected Js.TypeError
        end
      else Js.Resolved (Js.join ", " [])
  end.

(** [throw new Error(prefix + text)] once [text] is evaluated; what the
    evaluation throws is thrown instead. *)
Definition throw_Error (prefix : string) (text : Js.outcome string) : Js.exn :=
  match text with
  | Js.Resolved t => Js.Error (prefix ++ t)
  | Js.Rejected err => err
  end.

End Http.

(* ================================================================== *)
(** * Shared types ([types/types.ts]) *)
(* ================================================================== *)

Module Types.

Record User : Type := { name : string }.

(** Modelled from the spec: the declaration of [CommentDef] in
    [types/types.ts] is not among the sources. The fields are the ones
    [useComments] and [CommentsApiService.convertToFrontendComment] read and
    write: [id] is the spec's [localId], [backendId] its [remoteId] (absent
    on a [PENDING] record), [createdAt]/[updatedAt] the server timestamps. *)
Record CommentDef : Type := mkComment {
  id : string;
  backendId : option string;
  text : string;
  x : option Z;
  y : option Z;
  user : User;
  dashboardId : string;
  userId : string;
  createdAt : option string;
  updatedAt : option string
}.

End Types.

(* ================================================================== *)
(** * [services/commentsApi.ts] *)
(* ================================================================== *)

Module CommentsApiService.
Import Js Http Types.

(** [CommentResponse]: the identifier comes as [_id] or as [id]. *)
Record CommentResponse : Type := mkCommentResponse {
  _id : option string;
  id : option string;
  dashboard_id : string;
  user_id : string;
  user_name : option string;
  content : string;
  coordinates : list Z;
  created_at : string;
  updated_at : string
}.

(** The error branch of [createComment]. *)
Definition createComment_error {A} (response : Response A) : exn :=
  if (status response =? 422)%Z then
    throw_Error "Validation Error: " (validation_messages response)
  else
    throw_Error ("Error creating comment: " ++ show (status response) ++ " - ")
                (detail_or_statusText response).

(** [createComment], from the point where [fetch] settles. *)
Definition createComment (net : FetchOutcome CommentResponse)
  : outcome CommentResponse :=
  match net with
  | NetworkFailure e => Rejected e
  | Responded response =>
      if negb (ok response) then Rejected (createComment_error response)
      else json response
  end.

(** [getCommentsByDashboard]. *)
Definition getCommentsByDashboard (net : FetchOutcome (list CommentResponse))
  : outcome (list CommentResponse) :=
  match net with
  | NetworkFailure e => Rejected e
  | Responded response =>
      if negb (ok response) then
        if (status response =? 404)%Z then Resolved []
        else Rejected (Error ("Error fetching comments: " ++
                              show (status response) ++ " - " ++
                              statusText response))
      else json response
  end.

(** [updateComment]. *)
Definition updateComment (net : FetchOutcome CommentResponse)
  : outcome CommentResponse :=
  match net with
  | NetworkFailure e => Rejected e
  | Responded response =>
      if negb (ok response) then
        Rejected (throw_Error ("Error updating comment: " ++
                               show (status response) ++ " - ")
                              (detail_or_statusText response))
      else json response
  end.

(** [updateCommentCoordinates]. *)
Definition updateCommentCoordinates (net : FetchOutcome CommentResponse)
  : outcome CommentResponse :=
  match net with
  | NetworkFailure e => Rejected e
  | Responded response =>
      if negb (ok response) then
        Rejected (throw_Error ("Error updating comment coordinates: " ++
                               show (status response) ++ " - ")
                              (detail_or_statusText response))
      else json response
  end.

(** [deleteComment]: the body is never read. *)
Definition deleteComment (net : FetchOutcome unit) : outcome unit :=
  match net with
  | NetworkFailure e => Rejected e
  | Responded response =>
      if negb (ok response) then
        Rejected (Error ("Error deleting comment: " ++
                         show (status response) ++ " - " ++
                         statusText response))
      else Resolved tt
  end.

(** [convertToFrontendComment]: [_id || id || ''] names the comment both
    locally and remotely. *)
Definition convertToFrontendComment (backendComment : CommentResponse)
  : CommentDef :=
  let commentId :=
    or_else (_id backendComment) (or_else (id backendComment) "") in
  {| Types.id := commentId;
     x := nth_error (coordinates backendComment) 0;
     y := nth_error (coordinates backendComment) 1;
     text := content backendComment;
     user := {| name := or_else (user_name backendComment) "Usuario" |};
     backendId := Some commentId;
     dashboardId := dashboard_id backendComment;
     userId := user_id backendComment;
     createdAt := Some (created_at backendComment);
     updatedAt := Some (updated_at backendComment) |}.

(** [CreateCommentRequest]. *)
Record CreateCommentRequest : Type := mkCreateCommentRequest {
  req_content : string;
  req_coordinates : string;
  req_user_name : option string
}.

Section Rendering.

(** [Number::toString], by which a template literal renders a number. A
    coordinate is any number ([1e21] renders as ["1e+21"], [10.5] as
    ["10.5"]), so its rendering is not computed from the integer that
    stands for it. *)
Variable Number_toString : Z -> string.

(** A coordinate inside a template literal: [undefined] renders as
    ["undefined"]. *)
Definition show_coordinate (v : option Z) : string :=
  match v with
  | Some z => Number_toString z
  | None => "undefined"
  end.

(** [convertToBackendComment]. *)
Definition convertToBackendComment (frontendComment : CommentDef)
  : CreateCommentRequest :=
  {| req_content := Types.text frontendComment;
     req_coordinates :=
       show_coordinate (Types.x frontendComment) ++ "," ++
       show_coordinate (Types.y frontendComment);
     req_user_name := Some (name (user frontendComment)) |}.

End Rendering.

(** The requests on an existing comment, by method, path below the base
    URL and body: [PUT /{id}] with [{content}], [PUT /{id}/coordinates]
    with [[x, y]], [DELETE /{id}]. *)
Inductive Request : Type :=
| PUT_comment (commentId : string) (content : string)
| PUT_coordinates (commentId : string) (x y : Z)
| DELETE_comment (commentId : string).

End CommentsApiService.

(* ================================================================== *)
(** * The browser's [WebSocket] object and what the hooks observe of it *)
(* ================================================================== *)

Module WebSocket.
Import Js.

Inductive ReadyState : Type := CONNECTING | OPEN | CLOSING | CLOSED.

Definition ReadyState_eqb (a b : ReadyState) : bool :=
  match a, b with
  | CONNECTING, CONNECTING | OPEN, OPEN
  | CLOSING, CLOSING | CLOSED, CLOSED => true
  | _, _ => false
  end.

(** A socket: its [readyState] and the frames handed to the wire so far,
    oldest first. A frame is the value given to [JSON.stringify]. *)
Record t : Type := mk {
  readyState : ReadyState;
  wire : list json
}.

(** [new WebSocket(url)]. *)
Definition new : t := {| readyState := CONNECTING; wire := [] |}.

(** [ws.send(data)]: throws while [CONNECTING], transmits while [OPEN],
    discards silently afterwards. *)
Definition send (ws : t) (frame : json) : outcome t :=
  match readyState ws with
  | CONNECTING => Rejected InvalidStateError
  | OPEN => Resolved {| readyState := OPEN; wire := (wire ws ++ [frame])%list |}
  | CLOSING | CLOSED => Resolved ws
  end.

(** [ws.close()]. *)
Definition close (ws : t) : t :=
  match readyState ws with
  | CLOSED => ws
  | _ => {| readyState := CLOSING; wire := wire ws |}
  end.

(** The browser side of the three connection events: the state changes
    before the handler runs. *)
Definition opened (ws : t) : t := {| readyState := OPEN; wire := wire ws |}.
Definition closed (ws : t) : t := {| readyState := CLOSED; wire := wire ws |}.

End WebSocket.

(** Side effects a handler leaves behind, in program order. [console.log]
    is not recorded. *)
Inductive effect : Type :=
| console_error (what : string)
| console_warn (what : string)
| setTimeout (delay : Z)
| clearTimeout
| fetchConnectedUsers
| dispatchEvent (type : string) (detail : Js.json).

(* ================================================================== *)
(** * [hooks/useComments.ts]: the comment store *)
(* ================================================================== *)

Module useComments.
Import Js Http Types CommentsApiService.

Section Hook.

(** The hook's props. *)
Variables (dashboardId userId : string).

Definition handleCommentCreated (backendComment : CommentResponse)
  (prev : list CommentDef) : list CommentDef :=
  let frontend := convertToFrontendComment backendComment in
  let exists_ :=
    existsb (fun c =>
      strict_eq (backendId c) (backendId frontend) ||
      (truthy (backendId c) && strict_eq (backendId c) (_id backendComment)))
      prev in
  if exists_ then
    map (fun c =>
      if strict_eq (backendId c) (backendId frontend) ||
         strict_eq (backendId c) (_id backendComment)
      then frontend else c) prev
  else (prev ++ [frontend])%list.

Definition handleCommentUpdated (backendComment : CommentResponse)
  (prev : list CommentDef) : list CommentDef :=
  let frontend := convertToFrontendComment backendComment in
  map (fun c =>
    if strict_eq (backendId c) (backendId frontend) ||
       strict_eq (backendId c) (_id backendComment)
    then frontend else c) prev.

(** [commentId] is declared a string; it is [message.data.comment_id] of
    the frame, whatever that holds. *)
Definition handleCommentDeleted (commentId : any_string)
  (prev : list CommentDef) : list CommentDef :=
  filter (fun c => negb (strict_eq_any (backendId c) commentId)) prev.

(** [createTemporaryComment]; [now] is [Date.now()], [storedName] is
    [localStorage.getItem('user_name')]. Returns the new record and the
    next store. *)
Definition createTemporaryComment (now : Z) (storedName : option string)
  (x y : Z) (prev : list CommentDef) : CommentDef * list CommentDef :=
  let tempId := "temp-" ++ show now in
  let tempComment :=
    {| Types.id := tempId;
       backendId := None;
       text := "";
       Types.x := Some x;
       Types.y := Some y;
       user := {| name := or_else storedName "Usuario" |};
       Types.dashboardId := dashboardId;
       Types.userId := userId;
       createdAt := None;
       updatedAt := None |} in
  (tempComment, (prev ++ [tempComment])%list).

(** [saveTemporaryComment]. [comments] is the store as the callback closed
    over it when the call started; [prev] is the store at the moment the
    updater runs, after the REST call has settled as [net]. The request
    body does not influence [net] and is left out. Returns the next store
    and how the promise settles ([Resolved None]: [undefined]). *)
Definition saveTemporaryComment (comments : list CommentDef)
  (tempId text : string) (storedName : option string)
  (net : FetchOutcome CommentResponse) (prev : list CommentDef)
  : list CommentDef * outcome (option CommentDef) :=
  match find (fun c => (Types.id c =? tempId)%string) comments with
  | None => (prev, Resolved None)
  | Some comment =>
      match createComment net with
      | Resolved newComment =>
          let converted := convertToFrontendComment newComment in
          let converted :=
            if truthy storedName
            then {| Types.id := Types.id converted;
                    backendId := backendId converted;
                    text := Types.text converted;
                    Types.x := Types.x converted;
                    Types.y := Types.y converted;
                    user := {| name := or_else storedName "" |};
                    Types.dashboardId := Types.dashboardId converted;
                    Types.userId := Types.userId converted;
                    createdAt := createdAt converted;
                    updatedAt := updatedAt converted |}
            else converted in
          (map (fun c => if (Types.id c =? tempId)%string then converted else c)
               prev,
           Resolved (Some converted))
      | Rejected error => (prev, Rejected error)
      end
  end.

Definition cancelTemporaryComment (id : string) (prev : list CommentDef)
  : list CommentDef :=
  filter (fun c => negb (Types.id c =? id)%string) prev.

(** The hook's three pieces of state. *)
Record State : Type := mkState {
  comments : list CommentDef;
  loading : bool;
  error : option string
}.

(** [err instanceof Error ? err.message : "Error loading comments"]. Every
    value the model throws is an [Error]; the message of a built-in error
    is the engine's, [engine_message]. *)
Definition message_of (engine_message : exn -> string) (err : exn) : string :=
  match err with
  | Error m => m
  | _ => engine_message err
  end.

(** The updater of [loadComments]: the server's comments, then the
    temporary ones the server did not return. *)
Definition merge_loaded (frontendComments prev : list CommentDef)
  : list CommentDef :=
  let tempComments :=
    filter (fun c => String.prefix "temp-" (Types.id c)) prev in
  let tempWithoutSaved :=
    filter (fun t =>
      negb (existsb (fun fc =>
              strict_eq (backendId fc) (backendId t) ||
              (Types.id fc =? Types.id t)%string) frontendComments))
      tempComments in
  (frontendComments ++ tempWithoutSaved)%list.

(** [loadComments], from the settlement [net] of the list call to the end
    of the [finally] block. *)
Definition loadComments (engine_message : exn -> string)
  (net : FetchOutcome (list CommentResponse)) (st : State)
  : State * list effect :=
  match getCommentsByDashboard net with
  | Resolved backendComments =>
      let frontendComments := map convertToFrontendComment backendComments in
      ({| comments := merge_loaded frontendComments (comments st);
          loading := false;
          error := error st |}, [])
  | Rejected err =>
      ({| comments := comments st;
          loading := false;
          error := Some (message_of engine_message err) |},
       [console_error "Error loading comments:"])
  end.

(** [updateComment]. [comments] is the store the callback closed over.
    Returns the request issued, if any, how the promise settles, and the
    effects; the store is not written. *)
Definition updateComment (comments : list CommentDef) (id text : string)
  (net : FetchOutcome CommentResponse)
  : option Request * outcome unit * list effect :=
  match find (fun c => (Types.id c =? id)%string) comments with
  | None => (None, Resolved tt, [])
  | Some comment =>
      match backendId comment with
      | None => (None, Resolved tt, [])
      | Some b =>
          if (b =? "")%string then (None, Resolved tt, [])
          else
            match CommentsApiService.updateComment net with
            | Resolved _ => (Some (PUT_comment b text), Resolved tt, [])
            | Rejected error =>
                (Some (PUT_comment b text), Rejected error,
                 [console_error "[useComments] Failed to update comment:"])
            end
      end
  end.

(** [deleteComment]. *)
Definition deleteComment (comments : list CommentDef) (id : string)
  (net : FetchOutcome unit)
  : option Request * outcome unit * list effect :=
  match find (fun c => (Types.id c =? id)%string) comments with
  | None => (None, Resolved tt, [])
  | Some comment =>
      match backendId comment with
      | None => (None, Resolved tt, [])
      | Some b =>
          if (b =? "")%string then (None, Resolved tt, [])
          else
            match CommentsApiService.deleteComment net with
            | Resolved _ => (Some (DELETE_comment b), Resolved tt, [])
            | Rejected error =>
                (Some (DELETE_comment b), Rejected error,
                 [console_error "[useComments] Failed to delete comment:"])
            end
      end
  end.

(** [{ ...c, x, y }]. *)
Definition moved (x y : Z) (c : CommentDef) : CommentDef :=
  {| Types.id := Types.id c;
     backendId := backendId c;
     text := Types.text c;
     Types.x := Some x;
     Types.y := Some y;
     user := user c;
     Types.dashboardId := Types.dashboardId c;
     Types.userId := Types.userId c;
     createdAt := createdAt c;
     updatedAt := updatedAt c |}.

(** [updateCommentPosition]. [comments] is the store the callback closed
    over, [prev] the store when the updater runs. Returns the next store,
    the request issued, if any, how the promise settles, and the
    effects. *)
Definition updateCommentPosition (comments : list CommentDef) (id : string)
  (x y : Z) (net : FetchOutcome CommentResponse) (prev : list CommentDef)
  : list CommentDef * option Request * outcome unit * list effect :=
  let next :=
    map (fun c => if (Types.id c =? id)%string then moved x y c else c) prev in
  let skipped :=
    (next, None, Resolved tt,
     [console_warn
        "[useComments] Cannot update position: comment not found or no backendId"])
  in
  match find (fun c => (Types.id c =? id)%string) comments with
  | None => skipped
  | Some comment =>
      match backendId comment with
      | None => skipped
      | Some b =>
          if (b =? "")%string then skipped
          else
            match updateCommentCoordinates net with
            | Resolved _ => (next, Some (PUT_coordinates b x y), Resolved tt, [])
            | Rejected _ =>
                (next, Some (PUT_coordinates b x y), Resolved tt,
                 [console_error
                    "[useComments] Failed to update comment position:"])
            end
      end
  end.

End Hook.

(** The number of entities that carry [remoteId]. *)
Definition count_remoteId (remoteId : string) (store : list CommentDef) : nat :=
  List.length
    (filter (fun c => strict_eq (backendId c) (Some remoteId)) store).

End useComments.

(* ================================================================== *)
(** * [hooks/useCommentsWebSocket.ts] *)
(* ================================================================== *)

Module useCommentsWebSocket.
Import Js CommentsApiService.

(** A decoded frame: [{type, data}] with the three recognised [type]s; any
    other [type] reaches the [default:] branch. Of a [comment_deleted]
    frame the hook reads [data.comment_id], which is [undefined] when
    [data] has no such member. *)
Inductive CommentWebSocketMessage : Type :=
| comment_created (data : CommentResponse)
| comment_updated (data : CommentResponse)
| comment_deleted (comment_id : any_string)
| unknown (type : string).

(** The hook's refs. [reconnectTimeoutRef] holds the delay of the timer
    armed last. *)
Record Refs : Type := mkRefs {
  wsRef : option WebSocket.t;
  reconnectTimeoutRef : option Z;
  reconnectAttemptsRef : Z
}.

Definition maxReconnectAttempts : Z := 5.

Definition initial : Refs :=
  {| wsRef := None; reconnectTimeoutRef := None; reconnectAttemptsRef := 0 |}.

Section Hook.

(** The owner's state and the three callbacks passed as props. *)
Variable S : Type.
Variable onCommentCreated : CommentResponse -> S -> S.
Variable onCommentUpdated : CommentResponse -> S -> S.
Variable onCommentDeleted : any_string -> S -> S.

(** [JSON.parse] followed by the view of the result as a
    [CommentWebSocketMessage]; [None] when [JSON.parse] throws (the text is
    not JSON) or when reading [message.type] or [message.data.comment_id]
    throws. *)
Variable JSON_parse : string -> option CommentWebSocketMessage.

(** [connect]: a new socket replaces [wsRef.current]. *)
Definition connect (refs : Refs) : Refs :=
  {| wsRef := Some WebSocket.new;
     reconnectTimeoutRef := reconnectTimeoutRef refs;
     reconnectAttemptsRef := reconnectAttemptsRef refs |}.

Definition onopen (refs : Refs) : Refs :=
  {| wsRef := wsRef refs;
     reconnectTimeoutRef := reconnectTimeoutRef refs;
     reconnectAttemptsRef := 0 |}.

(** The body of the [try] block of [ws.onmessage]. *)
Definition onmessage_try (data : string) (st : Refs * S)
  : outcome ((Refs * S) * list effect) :=
  match JSON_parse data with
  | None => Rejected SyntaxError
  | Some message =>
      match message with
      | comment_created d => Resolved ((fst st, onCommentCreated d (snd st)), [])
      | comment_updated d => Resolved ((fst st, onCommentUpdated d (snd st)), [])
      | comment_deleted i => Resolved ((fst st, onCommentDeleted i (snd st)), [])
      | unknown _ =>
          Resolved (st, [console_warn "[Comments WS] Unknown message type:"])
      end
  end.

(** [ws.onmessage]: [try { ... } catch (error) { console.error(...) }]. *)
Definition onmessage (data : string) (st : Refs * S)
  : outcome ((Refs * S) * list effect) :=
  match onmessage_try data st with
  | Resolved r => Resolved r
  | Rejected _ =>
      Resolved (st, [console_error "[Comments WS] Error processing message:"])
  end.

Definition onerror (refs : Refs) : Refs * list effect :=
  (refs, [console_error "[Comments WS] WebSocket error:"]).

(** [ws.onclose]: the counter is incremented before the delay is
    computed. *)
Definition onclose (refs : Refs) : Refs * list effect :=
  if (reconnectAttemptsRef refs <? maxReconnectAttempts)%Z then
    let attempts := (reconnectAttemptsRef refs + 1)%Z in
    let delay := Z.min (1000 * 2 ^ attempts) 10000 in
    ({| wsRef := None;
        reconnectTimeoutRef := Some delay;
        reconnectAttemptsRef := attempts |},
     [setTimeout delay])
  else
    ({| wsRef := None;
        reconnectTimeoutRef := reconnectTimeoutRef refs;
        reconnectAttemptsRef := reconnectAttemptsRef refs |},
     [console_error "[Comments WS] Max reconnection attempts reached"]).

(** The timer's callback. *)
Definition ontimeout (refs : Refs) : Refs := connect refs.

Definition disconnect (refs : Refs) : Refs * list effect :=
  ({| wsRef := None;
      reconnectTimeoutRef := reconnectTimeoutRef refs;
      reconnectAttemptsRef := reconnectAttemptsRef refs |},
   match reconnectTimeoutRef refs with
   | Some _ => [clearTimeout]
   | None => []
   end).

End Hook.

End useCommentsWebSocket.

(** The delays of the timers armed in a list of effects. *)
Fixpoint delays (effects : list effect) : list Z :=
  match effects with
  | [] => []
  | setTimeout d :: r => d :: delays r
  | _ :: r => delays r
  end.

(* ================================================================== *)
(** * [hooks/useChatWebSocket.ts] *)
(* ================================================================== *)

Module useChatWebSocket.
Import Js.

Inductive MessageType : Type := user | system.

Record ChatMessage : Type := mkChatMessage {
  id : string;
  user_id : string;
  username : string;
  message : string;
  timestamp : string;
  message_type : MessageType
}.

Inductive Status : Type := online | offline.

Record ConnectedUser : Type := mkConnectedUser {
  cu_user_id : string;
  cu_username : string;
  cu_status : Status
}.

(** A decoded frame, by the [type]s the handler tests for, with the
    members it reads; any other [type] falls through every test. *)
Inductive ChatWsEvent : Type :=
| chat_message (id user_id username content timestamp : string)
| user_joined (username timestamp : string)
| comment_created (data : json)
| user_left (username timestamp : string)
| users_list (data : list ConnectedUser)
| error_event (message : option string)
| unknown (type : string).

(** The hook's state and refs, and whether [window.sendChatWsEvent] is
    installed. [error = None] is [null]; [reconnectTimeoutRef] holds the
    delay of the timer armed last. *)
Record State : Type := mkState {
  messages : list ChatMessage;
  connectedUsers : list ConnectedUser;
  isConnected : bool;
  error : option string;
  wsRef : option WebSocket.t;
  reconnectTimeoutRef : option Z;
  reconnectAttemptsRef : Z;
  sendChatWsEvent_installed : bool
}.

Definition initial : State :=
  {| messages := []; connectedUsers := []; isConnected := false;
     error := None; wsRef := None; reconnectTimeoutRef := None;
     reconnectAttemptsRef := 0; sendChatWsEvent_installed := false |}.

Definition setMessages (f : list ChatMessage -> list ChatMessage) (st : State)
  : State :=
  mkState (f (messages st)) (connectedUsers st) (isConnected st) (error st)
          (wsRef st) (reconnectTimeoutRef st) (reconnectAttemptsRef st)
          (sendChatWsEvent_installed st).

Definition setConnectedUsers (u : list ConnectedUser) (st : State) : State :=
  mkState (messages st) u (isConnected st) (error st)
          (wsRef st) (reconnectTimeoutRef st) (reconnectAttemptsRef st)
          (sendChatWsEvent_installed st).

Definition setIsConnected (b : bool) (st : State) : State :=
  mkState (messages st) (connectedUsers st) b (error st)
          (wsRef st) (reconnectTimeoutRef st) (reconnectAttemptsRef st)
          (sendChatWsEvent_installed st).

Definition setError (e : option string) (st : State) : State :=
  mkState (messages st) (connectedUsers st) (isConnected st) e
          (wsRef st) (reconnectTimeoutRef st) (reconnectAttemptsRef st)
          (sendChatWsEvent_installed st).

Definition set_wsRef (w : option WebSocket.t) (st : State) : State :=
  mkState (messages st) (connectedUsers st) (isConnected st) (error st)
          w (reconnectTimeoutRef st) (reconnectAttemptsRef st)
          (sendChatWsEvent_installed st).

Definition set_reconnectTimeoutRef (t : option Z) (st : State) : State :=
  mkState (messages st) (connectedUsers st) (isConnected st) (error st)
          (wsRef st) t (reconnectAttemptsRef st)
          (sendChatWsEvent_installed st).

Definition set_reconnectAttemptsRef (n : Z) (st : State) : State :=
  mkState (messages st) (connectedUsers st) (isConnected st) (error st)
          (wsRef st) (reconnectTimeoutRef st) n
          (sendChatWsEvent_installed st).

Definition set_sendChatWsEvent_installed (b : bool) (st : State) : State :=
  mkState (messages st) (connectedUsers st) (isConnected st) (error st)
          (wsRef st) (reconnectTimeoutRef st) (reconnectAttemptsRef st) b.

(** [!wsRef.current || wsRef.current.readyState !== WebSocket.OPEN]. *)
Definition not_open (st : State) : bool :=
  match wsRef st with
  | None => true
  | Some ws =>
      negb (WebSocket.ReadyState_eqb (WebSocket.readyState ws) WebSocket.OPEN)
  end.

(** [connectWebSocket], for a well-formed URL. *)
Definition connectWebSocket (st : State) : State :=
  set_wsRef (Some WebSocket.new) st.

Definition onopen (st : State) : State :=
  set_sendChatWsEvent_installed true
    (set_reconnectAttemptsRef 0 (setError None (setIsConnected true st))).

Section Inbound.

(** [JSON.parse] followed by the view of the result as a [ChatWsEvent];
    [None] when [JSON.parse] throws (the text is not JSON) or when reading
    the members throws. *)
Variable JSON_parse : string -> option ChatWsEvent.

(** The body of the [try] block of [ws.onmessage]; [now] is [Date.now()]. *)
Definition onmessage_try (now : Z) (data : string) (st : State)
  : outcome (State * list effect) :=
  match JSON_parse data with
  | None => Rejected SyntaxError
  | Some ev =>
      match ev with
      | chat_message i u n c t =>
          let message := mkChatMessage i u n c t user in
          Resolved (setMessages (fun prev => prev ++ [message])%list st, [])
      | user_joined n t =>
          let systemMessage :=
            mkChatMessage ("system-" ++ show now) "system" "System"
                          (n ++ " joined the chat") t system in
          Resolved (setMessages (fun prev => prev ++ [systemMessage])%list st,
                    [fetchConnectedUsers])
      | comment_created d =>
          Resolved (st, [dispatchEvent "comment_created" d])
      | user_left n t =>
          let systemMessage :=
            mkChatMessage ("system-" ++ show now) "system" "System"
                          (n ++ " left the chat") t system in
          Resolved (setMessages (fun prev => prev ++ [systemMessage])%list st,
                    [fetchConnectedUsers])
      | users_list d => Resolved (setConnectedUsers d st, [])
      | error_event m =>
          Resolved (setError m st, [console_error "WebSocket error message:"])
      | unknown _ => Resolved (st, [])
      end
  end.

(** [ws.onmessage]: [try { ... } catch (err) { console.error(...) }]. *)
Definition onmessage (now : Z) (data : string) (st : State)
  : outcome (State * list effect) :=
  match onmessage_try now data st with
  | Resolved r => Resolved r
  | Rejected _ =>
      Resolved (st, [console_error "Error parsing WebSocket message:"])
  end.

End Inbound.

Definition onerror (st : State) : State * list effect :=
  (setError (Some "Connection error") st, [console_error "WebSocket error:"]).

(** [ws.onclose]: the delay is computed from the counter as it stands; the
    counter is incremented by the timer's callback. *)
Definition onclose (st : State) : State * list effect :=
  let st := setIsConnected false st in
  if (reconnectAttemptsRef st <? 5)%Z then
    let delay := Z.min (1000 * 2 ^ reconnectAttemptsRef st) 10000 in
    (set_reconnectTimeoutRef (Some delay) st, [setTimeout delay])
  else
    (setError (Some "Failed to connect after multiple attempts") st, []).

(** The timer's callback. *)
Definition ontimeout (st : State) : State :=
  connectWebSocket
    (set_reconnectAttemptsRef (reconnectAttemptsRef st + 1)%Z st).

(** [sendMessage]. Returns the value returned, with the next state and the
    effects. *)
Definition sendMessage (message : jsstring) (st : State)
  : outcome (bool * (State * list effect)) :=
  match wsRef st with
  | None => Resolved (false, (setError (Some "Not connected to chat") st, []))
  | Some ws =>
      if negb (WebSocket.ReadyState_eqb (WebSocket.readyState ws)
                                        WebSocket.OPEN)
      then Resolved (false, (setError (Some "Not connected to chat") st, []))
      else if is_empty (trim message) then Resolved (false, (st, []))
      else
        match WebSocket.send ws
                (JObj [("type", JStr "chat_message");
                       ("data", JObj [("message", JStr (trim message))])])
        with
        | Resolved ws' => Resolved (true, (set_wsRef (Some ws') st, []))
        | Rejected _ =>
            Resolved (false, (setError (Some "Failed to send message") st,
                              [console_error "Error sending message:"]))
        end
  end.

(** An argument of type [any] given to [JSON.stringify]: a value with a
    JSON text, or one on which [JSON.stringify] throws. *)
Inductive any : Type :=
| serializable (j : json)
| circular.

(** [window.sendChatWsEvent], once installed by [onopen]. *)
Definition sendChatWsEvent (type : string) (data : any) (st : State)
  : outcome (bool * (State * list effect)) :=
  match wsRef st with
  | None => Resolved (false, (st, []))
  | Some ws =>
      if negb (WebSocket.ReadyState_eqb (WebSocket.readyState ws)
                                        WebSocket.OPEN)
      then Resolved (false, (st, []))
      else
        let attempt :=
          match data with
          | serializable j =>
              WebSocket.send ws (JObj [("type", JStr type); ("data", j)])
          | circular => Rejected TypeError
          end in
        match attempt with
        | Resolved ws' => Resolved (true, (set_wsRef (Some ws') st, []))
        | Rejected _ =>
            Resolved (false,
                      (st, [console_error "Failed to send chat WS event:"]))
        end
  end.

(** A message of the history endpoint, as [loadHistory] reads it. *)
Record HistoryMessage : Type := mkHistoryMessage {
  h_id : string;
  h_user_id : string;
  h_username : string;
  h_content : string;
  h_timestamp : string;
  h_message_type : string
}.

(** The mapping of [loadHistory]: [content] becomes [message], and any
    [message_type] other than ["system"] becomes [user]. *)
Definition mapHistoryMessage (msg : HistoryMessage) : ChatMessage :=
  {| id := h_id msg;
     user_id := h_user_id msg;
     username := h_username msg;
     message := h_content msg;
     timestamp := h_timestamp msg;
     message_type :=
       if (h_message_type msg =? "system")%string then system else user |}.

(** [loadHistory], from the settlement of [fetch]. The body is a list, or
    [null] ([Some None]), which [data || []] turns into the empty list. *)
Definition loadHistory
  (net : Http.FetchOutcome (option (list HistoryMessage))) (st : State)
  : State * list effect :=
  let attempt :=
    match net with
    | Http.NetworkFailure e => Rejected e
    | Http.Responded response =>
        if Http.ok response then
          match Http.json response with
          | Resolved data =>
              let l := match data with Some l => l | None => [] end in
              Resolved (setMessages (fun _ => map mapHistoryMessage l) st)
          | Rejected e => Rejected e
          end
        else Resolved st
    end in
  match attempt with
  | Resolved st' => (st', [])
  | Rejected _ => (st, [console_error "Failed to load chat history:"])
  end.

(** The body of the presence endpoint: [{ users }], [users] possibly
    missing. *)
Record UsersPayload : Type := mkUsersPayload {
  users : option (list ConnectedUser)
}.

(** The continuation of [fetchConnectedUsers] once [fetch] settles. *)
Definition fetchConnectedUsers_settled
  (net : Http.FetchOutcome UsersPayload) (st : State)
  : State * list effect :=
  let attempt :=
    match net with
    | Http.NetworkFailure e => Rejected e
    | Http.Responded response =>
        if Http.ok response then
          match Http.json response with
          | Resolved data =>
              Resolved
                (setConnectedUsers
                   (match users data with Some l => l | None => [] end) st)
          | Rejected e => Rejected e
          end
        else Resolved st
    end in
  match attempt with
  | Resolved st' => (st', [])
  | Rejected _ => (st, [console_error "Failed to fetch connected users:"])
  end.

(** The cleanup of the connection effect. Returns the next state, the
    socket it closed, if any, and the effects. *)
Definition cleanup (st : State) : State * option WebSocket.t * list effect :=
  let effects :=
    match reconnectTimeoutRef st with
    | Some _ => [clearTimeout]
    | None => []
    end in
  match wsRef st with
  | Some ws =>
      (set_sendChatWsEvent_installed false (set_wsRef None st),
       Some (WebSocket.close ws), effects)
  | None => (st, None, effects)
  end.

End useChatWebSocket.

(* ================================================================== *)
(** * [services/chatApi.ts] *)
(* ================================================================== *)

Module ChatApiService.
Import Js Http.

Record ChatMessage : Type := mkChatMessage {
  id : string;
  user_id : string;
  username : string;
  content : string;
  message_type : string;
  timestamp : string;
  dashboard_id : string;
  reply_to : option string;
  isServerMessage : bool
}.


Record ConnectedUser : Type := mkConnectedUser {
  cu_user_id : string;
  cu_username : string;
  cu_dashboard_id : string;
  cu_connected_at : string
}.






(** The singleton's socket. The subscriber lists are not modelled; what
    [notifyMessageHandlers] is called with is returned instead. *)
Record Service : Type := mkService { ws : option WebSocket.t }.

(** [sendMessage], of return type [void]. [now] is [Date.now()], [random]
    the rendering of [Math.random()], [iso] is [new Date().toISOString()].
    Returns the value returned, with the next service, the messages
    notified and the effects. *)
Definition sendMessage (now : Z) (random iso : string)
  (message userId username dashboardId : string) (svc : Service)
  : outcome (unit * (Service * list ChatMessage * list effect)) :=
  match ws svc with
  | Some w =>
      if WebSocket.ReadyState_eqb (WebSocket.readyState w) WebSocket.OPEN then
        let optimisticMessage :=
          {| id := "temp_" ++ show now ++ "_" ++ random;
             user_id := userId;
             username := username;
             content := message;
             message_type := "text";
             timestamp := iso;
             dashboard_id := dashboardId;
             reply_to := None;
             isServerMessage := false |} in
        match WebSocket.send w
                (JObj [("type", JStr "chat_message");
                       ("data", JObj [("content", JStr message);
                                      ("message_type", JStr "text")])])
        with
        | Resolved w' =>
            Resolved (tt, ({| ws := Some w' |}, [optimisticMessage], []))
        | Rejected e => Rejected e
        end
      else
        Resolved (tt, (svc, [], [console_error "WebSocket is not connected"]))
  | None =>
      Resolved (tt, (svc, [], [console_error "WebSocket is not connected"]))
  end.

Definition disconnect (svc : Service) : Service := {| ws := None |}.

Definition isConnected (svc : Service) : bool :=
  match ws svc with
  | Some w => WebSocket.ReadyState_eqb (WebSocket.readyState w) WebSocket.OPEN
  | None => false
  end.

(** A subscriber: callbacks are compared by reference, which the number
    stands for. *)
Definition Handler : Type := nat.

(** The three subscriber lists. *)
Record Subscribers : Type := mkSubscribers {
  messageHandlers : list Handler;
  connectionHandlers : list Handler;
  messagesClearedHandlers : list Handler
}.

Definition onMessage (handler : Handler) (subs : Subscribers) : Subscribers :=
  {| messageHandlers := (messageHandlers subs ++ [handler])%list;
     connectionHandlers := connectionHandlers subs;
     messagesClearedHandlers := messagesClearedHandlers subs |}.

Definition onConnection (handler : Handler) (subs : Subscribers) : Subscribers :=
  {| messageHandlers := messageHandlers subs;
     connectionHandlers := (connectionHandlers subs ++ [handler])%list;
     messagesClearedHandlers := messagesClearedHandlers subs |}.

Definition onMessagesCleared (handler : Handler) (subs : Subscribers)
  : Subscribers :=
  {| messageHandlers := messageHandlers subs;
     connectionHandlers := connectionHandlers subs;
     messagesClearedHandlers := (messagesClearedHandlers subs ++ [handler])%list |}.

Definition removeMessageHandler (handler : Handler) (subs : Subscribers)
  : Subscribers :=
  {| messageHandlers :=
       filter (fun h => negb (h =? handler)%nat) (messageHandlers subs);
     connectionHandlers := connectionHandlers subs;
     messagesClearedHandlers := messagesClearedHandlers subs |}.

Definition removeConnectionHandler (handler : Handler) (subs : Subscribers)
  : Subscribers :=
  {| messageHandlers := messageHandlers subs;
     connectionHandlers :=
       filter (fun h => negb (h =? handler)%nat) (connectionHandlers subs);
     messagesClearedHandlers := messagesClearedHandlers subs |}.

Definition removeMessagesClearedHandler (handler : Handler)
  (subs : Subscribers) : Subscribers :=
  {| messageHandlers := messageHandlers subs;
     connectionHandlers := connectionHandlers subs;
     messagesClearedHandlers :=
       filter (fun h => negb (h =? handler)%nat) (messagesClearedHandlers subs) |}.

(** A call made to a subscriber. *)
Inductive Call : Type :=
| message_call (handler : Handler) (message : ChatMessage)
| connection_call (handler : Handler) (connected : bool)
| cleared_call (handler : Handler).

(** [notifyMessageHandlers], [notifyConnectionHandlers] and
    [notifyMessagesClearedHandlers]: the calls made, in order. *)
Definition notifyMessageHandlers (message : ChatMessage) (subs : Subscribers)
  : list Call :=
  map (fun h => message_call h message) (messageHandlers subs).

Definition notifyConnectionHandlers (connected : bool) (subs : Subscribers)
  : list Call :=
  map (fun h => connection_call h connected) (connectionHandlers subs).

Definition notifyMessagesClearedHandlers (subs : Subscribers) : list Call :=
  map cleared_call (messagesClearedHandlers subs).

(** A decoded frame, by the two [type]s the service tests for. *)
Inductive ServiceEvent : Type :=
| chat_message (message : ChatMessage)
| messages_cleared
| unknown (type : string).

(** [connectToRoom]: the previous socket, if any, is closed and a new one
    takes its place. Returns the next service and the socket closed. *)
Definition connectToRoom (svc : Service) : Service * option WebSocket.t :=
  ({| ws := Some WebSocket.new |}, option_map WebSocket.close (ws svc)).

Section Inbound.

(** [JSON.parse] followed by the view of the result as a [ServiceEvent];
    [None] when [JSON.parse] throws or when reading the members throws. *)
Variable JSON_parse : string -> option ServiceEvent.

(** The socket's [onmessage]: the calls made and the effects. *)
Definition onmessage (data : string) (subs : Subscribers)
  : list Call * list effect :=
  match JSON_parse data with
  | None => ([], [console_error "Error parsing WebSocket message:"])
  | Some (chat_message m) =>
      (notifyMessageHandlers
         {| id := id m; user_id := user_id m; username := username m;
            content := content m; message_type := message_type m;
            timestamp := timestamp m; dashboard_id := dashboard_id m;
            reply_to := reply_to m; isServerMessage := true |} subs, [])
  | Some messages_cleared => (notifyMessagesClearedHandlers subs, [])
  | Some (unknown _) => ([], [])
  end.

End Inbound.

Definition onopen (subs : Subscribers) : list Call :=
  notifyConnectionHandlers true subs.

Definition onclose (subs : Subscribers) : list Call :=
  notifyConnectionHandlers false subs.

Definition onerror (subs : Subscribers) : list Call * list effect :=
  (notifyConnectionHandlers false subs, [console_error "WebSocket error:"]).

(** [sendMessage] with its subscribers: the optimistic message is handed
    to every message handler before the frame is sent. *)
Definition sendMessage_calls (now : Z) (random iso : string)
  (message userId username dashboardId : string) (svc : Service)
  (subs : Subscribers) : list Call :=
  match sendMessage now random iso message userId username dashboardId svc with
  | Resolved (_, (_, notified, _)) =>
      flat_map (fun m => notifyMessageHandlers m subs) notified
  | Rejected _ => []
  end.

End ChatApiService.

(** The JavaScript value a call evaluates to, by the return type of its
    model: a [boolean] function returns its boolean, a [void] function
    returns [undefined]. *)
Inductive value : Type :=
| undefined
| boolean (b : bool).

Class Returns (A : Type) : Type := returned : A -> value.

#[export] Instance Returns_bool : Returns bool := boolean.
#[export] Instance Returns_unit : Returns unit := fun _ => undefined.

(** The value a call returns; [None] when it throws. *)
Definition returned_value {A R : Type} `{Returns A} (o : Js.outcome (A * R))
  : option value :=
  match o with
  | Js.Resolved (a, _) => Some (returned a)
  | Js.Rejected _ => None
  end.

(* ================================================================== *)
(** * The comment stream wired to the comment store *)
(* ================================================================== *)

Module CommentSync.
Import Js CommentsApiService Types.

(** [useComments] passes its three handlers to [useCommentsWebSocket]
    (the hook's props do not reach them). *)
Definition onmessage (JSON_parse : string -> option useCommentsWebSocket.CommentWebSocketMessage) :=
  useCommentsWebSocket.onmessage (list CommentDef)
    useComments.handleCommentCreated
    useComments.handleCommentUpdated
    useComments.handleCommentDeleted
    JSON_parse.

(** What a decoded server event does to the store. *)
Definition apply (e : useCommentsWebSocket.CommentWebSocketMessage)
  (store : list CommentDef) : list CommentDef :=
  match e with
  | useCommentsWebSocket.comment_created d =>
      useComments.handleCommentCreated d store
  | useCommentsWebSocket.comment_updated d =>
      useComments.handleCommentUpdated d store
  | useCommentsWebSocket.comment_deleted i =>
      useComments.handleCommentDeleted i store
  | useCommentsWebSocket.unknown _ => store
  end.

(** The [remoteId] a server record carries. *)
Definition remoteId (r : CommentResponse) : string :=
  or_else (_id r) (or_else (CommentsApiService.id r) "").

End CommentSync.

(* ================================================================== *)
(** * Sample data *)
(* ================================================================== *)

Module Sample.
Import Js Http Types CommentsApiService.

(** The server record of comment ["c1"], identified by [_id]. *)
Definition record_c1 : CommentResponse :=
  {| _id := Some "c1"; id := None; dashboard_id := "d1"; user_id := "u1";
     user_name := Some "Ana"; content := "hi"; coordinates := [10; 20]%Z;
     created_at := "2025-01-01T00:00:00Z";
     updated_at := "2025-01-01T00:00:00Z" |}.

(** The same record as the backend sends it when it names the identifier
    [id]. *)
Definition record_c1_by_id : CommentResponse :=
  {| _id := None; id := Some "c1"; dashboard_id := "d1"; user_id := "u1";
     user_name := Some "Ana"; content := "hi"; coordinates := [10; 20]%Z;
     created_at := "2025-01-01T00:00:00Z";
     updated_at := "2025-01-01T00:00:00Z" |}.

(** A later state of ["c1"]. *)
Definition record_c1_edited : CommentResponse :=
  {| _id := Some "c1"; id := None; dashboard_id := "d1"; user_id := "u1";
     user_name := Some "Ana"; content := "hi there";
     coordinates := [10; 20]%Z;
     created_at := "2025-01-01T00:00:00Z";
     updated_at := "2025-01-01T00:05:00Z" |}.

Definition record_c0 : CommentResponse :=
  {| _id := Some "c0"; id := None; dashboard_id := "d1"; user_id := "u2";
     user_name := Some "Luis"; content := "first"; coordinates := [1; 2]%Z;
     created_at := "2024-12-31T00:00:00Z";
     updated_at := "2024-12-31T00:00:00Z" |}.

(** The store after [createTemporaryComment(10, 20)] at time 1 on an empty
    board, and the record created. *)
Definition pending : CommentDef :=
  fst (useComments.createTemporaryComment "d1" "u1" 1 (Some "Ana") 10 20 []).

Definition store_pending : list CommentDef :=
  snd (useComments.createTemporaryComment "d1" "u1" 1 (Some "Ana") 10 20 []).

(** A 201 answer of the create call carrying [record_c1]. *)
Definition created_c1 : FetchOutcome CommentResponse :=
  Responded (mkResponse 201 "Created" (Some record_c1) NoDetail).

End Sample.

(** Replacing in place the elements selected by [p] with [v]: the shape of
    every overwrite in the store. *)
Definition overwrite {A : Type} (p : A -> bool) (v : A) (l : list A) : list A :=
  map (fun c => if p c then v else c) l.

(** The test by which [handleCommentCreated] and [handleCommentUpdated]
    select the entities they overwrite. *)
Definition replaces (backendComment : CommentsApiService.CommentResponse)
  (c : Types.CommentDef) : bool :=
  Js.strict_eq (Types.backendId c)
    (Types.backendId
       (CommentsApiService.convertToFrontendComment backendComment)) ||
  Js.strict_eq (Types.backendId c) (CommentsApiService._id backendComment).

(** The test by which [handleCommentCreated] decides that the comment
    already exists. *)
Definition present (backendComment : CommentsApiService.CommentResponse)
  (c : Types.CommentDef) : bool :=
  Js.strict_eq (Types.backendId c)
    (Types.backendId
       (CommentsApiService.convertToFrontendComment backendComment)) ||
  (Js.truthy (Types.backendId c) &&
   Js.strict_eq (Types.backendId c) (CommentsApiService._id backendComment)).

(** ** Runs of failed connections

    One loss of the connection: the browser marks the socket closed and
    calls [onclose]; when that arms a timer, the timer fires and its
    callback opens a new socket, which is the one to fail next. *)

Definition comments_loss (refs : useCommentsWebSocket.Refs)
  : useCommentsWebSocket.Refs * list effect :=
  let (refs', effects) := useCommentsWebSocket.onclose refs in
  match delays effects with
  | [] => (refs', effects)
  | _ :: _ => (useCommentsWebSocket.ontimeout refs', effects)
  end.

Fixpoint comments_losses (n : nat) (refs : useCommentsWebSocket.Refs)
  : list effect :=
  match n with
  | O => []
  | S n' =>
      let (refs', effects) := comments_loss refs in
      (effects ++ comments_losses n' refs')%list
  end.

Definition chat_loss (st : useChatWebSocket.State)
  : useChatWebSocket.State * list effect :=
  let closed :=
    useChatWebSocket.set_wsRef
      (option_map WebSocket.closed (useChatWebSocket.wsRef st)) st in
  let (st', effects) := useChatWebSocket.onclose closed in
  match delays effects with
  | [] => (st', effects)
  | _ :: _ => (useChatWebSocket.ontimeout st', effects)
  end.

Fixpoint chat_losses (n : nat) (st : useChatWebSocket.State)
  : list (useChatWebSocket.State * list effect) :=
  match n with
  | O => []
  | S n' =>
      let (st', effects) := chat_loss st in
      (st', effects) :: chat_losses n' st'
  end.

(** The hooks once their first socket has opened. *)
Definition comments_connected : useCommentsWebSocket.Refs :=
  useCommentsWebSocket.onopen
    (useCommentsWebSocket.mkRefs (Some (WebSocket.opened WebSocket.new))
                                 None 0).

Definition chat_connected : useChatWebSocket.State :=
  useChatWebSocket.onopen
    (useChatWebSocket.set_wsRef (Some (WebSocket.opened WebSocket.new))
                                useChatWebSocket.initial).

(** The frames the chat hook's socket has put on the wire. *)
Definition chat_wire (st : useChatWebSocket.State) : list Js.json :=
  match useChatWebSocket.wsRef st with
  | Some ws => WebSocket.wire ws
  | None => []
  end.

(** The chat hook's socket opens: the browser marks it [OPEN] and calls
    [onopen]. *)
Definition chat_socket_opens (st : useChatWebSocket.State)
  : useChatWebSocket.State :=
  useChatWebSocket.onopen
    (useChatWebSocket.set_wsRef
       (option_map WebSocket.opened (useChatWebSocket.wsRef st)) st).

(** ** Stand-ins for [JSON.parse] on sample frames

    Where a concrete decoder is needed, each of these recognises one
    well-formed frame and rejects every other text. *)

Definition quote : string := String (ascii_of_nat 34) "".

(** The text [{"type":"users_list","data":[]}]. *)
Definition frame_users_list : string :=
  "{" ++ quote ++ "type" ++ quote ++ ":" ++ quote ++ "users_list" ++ quote ++
  "," ++ quote ++ "data" ++ quote ++ ":[]}".

(** The text [{"type":"comment_deleted","data":{"comment_id":"c1"}}]. *)
Definition frame_comment_deleted : string :=
  "{" ++ quote ++ "type" ++ quote ++ ":" ++ quote ++ "comment_deleted" ++ quote ++
  "," ++ quote ++ "data" ++ quote ++ ":{" ++ quote ++ "comment_id" ++ quote ++
  ":" ++ quote ++ "c1" ++ quote ++ "}}".

Definition frame_truncated : string := "{" ++ quote ++ "type" ++ quote ++ ":".

Definition parse_chat_sample (text : string)
  : option useChatWebSocket.ChatWsEvent :=
  if (text =? frame_users_list)%string
  then Some (useChatWebSocket.users_list [])
  else None.

Definition parse_comments_sample (text : string)
  : option useCommentsWebSocket.CommentWebSocketMessage :=
  if (text =? frame_comment_deleted)%string
  then Some (useCommentsWebSocket.comment_deleted (Js.AString "c1"))
  else None.

(** ** The hooks driven by the browser

    The chat hook together with whether its reconnection timer is armed
    and has not fired yet. *)
Record ChatRun : Type := mkChatRun {
  hook : useChatWebSocket.State;
  timer_pending : bool
}.

(** What the browser may deliver: a socket that is [CONNECTING] opens; an
    [OPEN] socket receives a frame; a socket that is not closed yet reports
    an error, or closes; an armed timer fires. An event the browser cannot
    deliver in the current state changes nothing. *)
Inductive BrowserEvent : Type :=
| socket_opens
| socket_message (now : Z) (data : string)
| socket_error
| socket_closes
| timer_fires.

Definition chat_step
  (JSON_parse : string -> option useChatWebSocket.ChatWsEvent)
  (run : ChatRun) (ev : BrowserEvent) : ChatRun :=
  let st := hook run in
  match ev, useChatWebSocket.wsRef st with
  | socket_opens, Some ws =>
      match WebSocket.readyState ws with
      | WebSocket.CONNECTING =>
          mkChatRun (chat_socket_opens st) (timer_pending run)
      | _ => run
      end
  | socket_message now data, Some ws =>
      match WebSocket.readyState ws with
      | WebSocket.OPEN =>
          match useChatWebSocket.onmessage JSON_parse now data st with
          | Js.Resolved (st', _) => mkChatRun st' (timer_pending run)
          | Js.Rejected _ => run
          end
      | _ => run
      end
  | socket_error, Some ws =>
      match WebSocket.readyState ws with
      | WebSocket.CLOSED => run
      | _ => mkChatRun (fst (useChatWebSocket.onerror st)) (timer_pending run)
      end
  | socket_closes, Some ws =>
      match WebSocket.readyState ws with
      | WebSocket.CLOSED => run
      | _ =>
          let (st', effects) :=
            useChatWebSocket.onclose
              (useChatWebSocket.set_wsRef (Some (WebSocket.closed ws)) st) in
          mkChatRun st'
            (match delays effects with
             | [] => timer_pending run
             | _ :: _ => true
             end)
      end
  | timer_fires, _ =>
      if timer_pending run
      then mkChatRun (useChatWebSocket.ontimeout st) false
      else run
  | _, None => run
  end.

(** What every run of the chat hook keeps: the attempt counter is within
    0..5, and while a timer is armed the counter is below 5 and the socket
    is closed. *)
Definition chat_invariant (run : ChatRun) : Prop :=
  (0 <= useChatWebSocket.reconnectAttemptsRef (hook run) <= 5)%Z /\
  (timer_pending run = true ->
     (useChatWebSocket.reconnectAttemptsRef (hook run) < 5)%Z /\
     exists ws, useChatWebSocket.wsRef (hook run) = Some ws /\
                WebSocket.readyState ws = WebSocket.CLOSED).

(** The chat hook right after its effect has run [connectWebSocket]. *)
Definition chat_started : ChatRun :=
  mkChatRun (useChatWebSocket.connectWebSocket useChatWebSocket.initial) false.

(** The handlers of the comment stream that write the refs. *)
Inductive CommentsCall : Type :=
| call_connect
| call_onopen
| call_onerror
| call_onclose
| call_ontimeout
| call_disconnect.

Definition comments_step (refs : useCommentsWebSocket.Refs)
  (c : CommentsCall) : useCommentsWebSocket.Refs :=
  match c with
  | call_connect => useCommentsWebSocket.connect refs
  | call_onopen => useCommentsWebSocket.onopen refs
  | call_onerror => fst (useCommentsWebSocket.onerror refs)
  | call_onclose => fst (useCommentsWebSocket.onclose refs)
  | call_ontimeout => useCommentsWebSocket.ontimeout refs
  | call_disconnect => fst (useCommentsWebSocket.disconnect refs)
  end.

(* ================================================================== *)
(** * Properties of the primitives *)
(* ================================================================== *)

Section JsFacts.
Import Js.

Lemma strict_eq_refl (a : option string) : strict_eq a a = true.
Proof. destruct a as [s|]; simpl; [apply String.eqb_refl | reflexivity]. Qed.

Lemma strict_eq_Some (a : option string) (s : string) :
  strict_eq a (Some s) = true <-> a = Some s.
Proof.
  destruct a as [t|]; simpl; split; intro H; try discriminate.
  - apply String.eqb_eq in H. now subst.
  - injection H as ->. apply String.eqb_refl.
Qed.

Lemma strict_eq_eq (a b : option string) : strict_eq a b = true <-> a = b.
Proof.
  destruct b as [s|]; [apply strict_eq_Some|].
  destruct a; simpl; split; congruence.
Qed.

Lemma or_else_Some (s t : string) : s <> "" -> or_else (Some s) t = s.
Proof.
  intro H. unfold or_else. destruct (String.eqb_spec s ""); congruence.
Qed.

End JsFacts.

Section Overwrite.
Context {A : Type} (p : A -> bool) (v : A).

Lemma overwrite_length l : List.length (overwrite p v l) = List.length l.
Proof. apply length_map. Qed.

Lemma overwrite_idempotent l :
  p v = true -> overwrite p v (overwrite p v l) = overwrite p v l.
Proof.
  intro Hv. unfold overwrite. rewrite map_map. apply map_ext. intro c.
  destruct (p c) eqn:E; [now rewrite Hv | now rewrite E].
Qed.

Lemma overwrite_none l :
  (forall c, In c l -> p c = false) -> overwrite p v l = l.
Proof.
  intro H. unfold overwrite. rewrite <- (map_id l) at 2.
  apply map_ext_in. intros c Hc. now rewrite (H c Hc).
Qed.

Lemma overwrite_nth l i c :
  nth_error l i = Some c ->
  nth_error (overwrite p v l) i = Some (if p c then v else c).
Proof. intro H. unfold overwrite. now rewrite nth_error_map, H. Qed.

Lemma overwrite_ext (q : A -> bool) l :
  (forall c, In c l -> p c = q c) ->
  overwrite p v l = map (fun c => if q c then v else c) l.
Proof.
  intro H. unfold overwrite. apply map_ext_in. intros c Hc.
  now rewrite (H c Hc).
Qed.

End Overwrite.

(* ================================================================== *)
(** * The comment store: reconciliation *)
(* ================================================================== *)

Section Reconciliation.
Import Js Http Types CommentsApiService.
Import useComments CommentSync.

Lemma handleCommentUpdated_overwrite e prev :
  handleCommentUpdated e prev =
  overwrite (replaces e) (convertToFrontendComment e) prev.
Proof. reflexivity. Qed.

Lemma backendId_convert e :
  backendId (convertToFrontendComment e) = Some (remoteId e).
Proof. reflexivity. Qed.

Lemma replaces_convert e : replaces e (convertToFrontendComment e) = true.
Proof. unfold replaces. now rewrite strict_eq_refl. Qed.

(** With a non-empty [_id], both tests compare with that identifier. *)
Lemma remoteId_of__id e rid : _id e = Some rid -> rid <> "" -> remoteId e = rid.
Proof. intros H Hne. unfold remoteId. rewrite H. now apply or_else_Some. Qed.

Lemma replaces_by__id e rid c :
  _id e = Some rid -> rid <> "" ->
  replaces e c = strict_eq (backendId c) (Some rid).
Proof.
  intros H Hne. unfold replaces.
  rewrite backendId_convert, (remoteId_of__id e rid H Hne), H.
  apply orb_diag.
Qed.

Lemma count_remoteId_app rid l1 l2 :
  count_remoteId rid (l1 ++ l2) = count_remoteId rid l1 + count_remoteId rid l2.
Proof. unfold count_remoteId. now rewrite filter_app, length_app. Qed.

Lemma count_remoteId_none rid l :
  (forall c, In c l -> backendId c <> Some rid) -> count_remoteId rid l = 0.
Proof.
  intro H. unfold count_remoteId.
  induction l as [|c l IH]; simpl; [reflexivity|].
  destruct (strict_eq (backendId c) (Some rid)) eqn:E.
  - apply strict_eq_Some in E. exfalso. apply (H c); [now left | exact E].
  - apply IH. intros d Hd. apply H. now right.
Qed.

(** An [updated] event applied twice is the event applied once. *)
Lemma handleCommentUpdated_idempotent e prev :
  handleCommentUpdated e (handleCommentUpdated e prev) =
  handleCommentUpdated e prev.
Proof.
  rewrite !handleCommentUpdated_overwrite.
  apply overwrite_idempotent, replaces_convert.
Qed.

(** A [deleted] event applied twice is the event applied once. *)
Lemma handleCommentDeleted_idempotent i prev :
  handleCommentDeleted i (handleCommentDeleted i prev) =
  handleCommentDeleted i prev.
Proof.
  unfold handleCommentDeleted.
  induction prev as [|c l IH]; simpl; [reflexivity|].
  destruct (strict_eq_any (backendId c) i) eqn:E; simpl.
  - exact IH.
  - rewrite E. simpl. now rewrite IH.
Qed.

(** A [deleted] event for an identifier the store does not hold changes
    nothing. *)
Lemma handleCommentDeleted_absent i prev :
  (forall c, In c prev -> backendId c <> Some i) ->
  handleCommentDeleted (AString i) prev = prev.
Proof.
  intro H. unfold handleCommentDeleted, strict_eq_any.
  induction prev as [|c l IH]; simpl; [reflexivity|].
  destruct (strict_eq (backendId c) (Some i)) eqn:E; simpl.
  - apply strict_eq_Some in E. exfalso. apply (H c); [now left | exact E].
  - f_equal. apply IH. intros d Hd. apply H. now right.
Qed.

(** A [deleted] event whose frame carries no [comment_id] removes the
    comments that have no [backendId], the pending ones, and only those. *)
Lemma handleCommentDeleted_undefined prev :
  handleCommentDeleted AUndefined prev =
  filter (fun c => match backendId c with
                   | Some _ => true
                   | None => false
                   end) prev.
Proof.
  unfold handleCommentDeleted. apply filter_ext. intro c.
  now destruct (backendId c).
Qed.

(** A [comment_id] that is neither a string nor missing removes nothing. *)
Lemma handleCommentDeleted_other prev : handleCommentDeleted AOther prev = prev.
Proof.
  unfold handleCommentDeleted. induction prev as [|c l IH]; simpl;
    [reflexivity | now f_equal].
Qed.

(** [handleCommentCreated] in terms of its two tests. *)
Lemma handleCommentCreated_unfold e prev :
  handleCommentCreated e prev =
  if existsb (present e) prev
  then overwrite (replaces e) (convertToFrontendComment e) prev
  else (prev ++ [convertToFrontendComment e])%list.
Proof. reflexivity. Qed.

Lemma present_convert e : present e (convertToFrontendComment e) = true.
Proof. unfold present. now rewrite strict_eq_refl. Qed.

Lemma present_replaces e c : present e c = true -> replaces e c = true.
Proof.
  unfold present, replaces. intro H.
  apply orb_true_iff in H. destruct H as [H|H].
  - now rewrite H.
  - apply andb_true_iff in H. destruct H as [_ H]. rewrite H. apply orb_true_r.
Qed.

(** The two tests agree on an entity unless its [backendId] is falsy and
    equal to the record's [_id]. *)
Lemma created_tests_agree e c :
  truthy (backendId c) = true \/ truthy (_id e) = true ->
  present e c = replaces e c.
Proof.
  intros H. unfold present, replaces. f_equal.
  destruct (truthy (backendId c)) eqn:T; [reflexivity|]. simpl.
  destruct H as [H|H]; [discriminate|].
  destruct (strict_eq (backendId c) (_id e)) eqn:E; [|reflexivity].
  apply strict_eq_eq in E. rewrite E in T. congruence.
Qed.

(** A [created] event applied twice is the event applied once, provided
    the record carries a non-empty [_id] or the store holds no entity
    without a [backendId]. *)
Lemma handleCommentCreated_idempotent e prev :
  truthy (_id e) = true \/
  (forall c, In c prev -> truthy (backendId c) = true) ->
  handleCommentCreated e (handleCommentCreated e prev) =
  handleCommentCreated e prev.
Proof.
  intro Hg.
  assert (Hagree : forall c, In c prev -> present e c = replaces e c).
  { intros c Hc. apply created_tests_agree.
    destruct Hg as [Hg|Hg]; [now right | left; now apply Hg]. }
  rewrite (handleCommentCreated_unfold e prev).
  destruct (existsb (present e) prev) eqn:Ex.
  - (* present: overwritten in place, and still present afterwards *)
    rewrite handleCommentCreated_unfold.
    assert (Ex' : existsb (present e)
              (overwrite (replaces e) (convertToFrontendComment e) prev) = true).
    { apply existsb_exists in Ex. destruct Ex as (c & Hc & Hq).
      apply existsb_exists. exists (convertToFrontendComment e). split.
      - unfold overwrite. apply in_map_iff. exists c. split; [|exact Hc].
        now rewrite (present_replaces e c Hq).
      - apply present_convert. }
    rewrite Ex'. apply overwrite_idempotent, replaces_convert.
  - (* absent: appended once, found by the replay *)
    rewrite handleCommentCreated_unfold.
    rewrite existsb_app. simpl existsb at 2.
    rewrite present_convert, orb_true_r.
    unfold overwrite at 1. rewrite map_app. simpl.
    rewrite replaces_convert. f_equal.
    apply overwrite_none. intros c Hc. rewrite <- (Hagree c Hc).
    destruct (present e c) eqn:P; [|reflexivity].
    assert (existsb (present e) prev = true) by (apply existsb_exists; eauto).
    congruence.
Qed.

End Reconciliation.

Section StoreClaims.
Import Js Http Types CommentsApiService.
Import useComments CommentSync Sample.
Import useCommentsWebSocket.

(** The stream handler, on a frame that decodes to [e], applies [e] to the
    store and leaves the refs alone. *)
Lemma onmessage_apply JSON_parse data e refs store :
  JSON_parse data = Some e ->
  exists effects,
    CommentSync.onmessage JSON_parse data (refs, store) =
    Resolved ((refs, apply e store), effects).
Proof.
  intro H. unfold CommentSync.onmessage, onmessage, onmessage_try.
  rewrite H. destruct e; simpl; eauto.
Qed.

(** Events that replay without effect: [updated], [deleted], unknown
    types, and [created] under the proviso of
    [handleCommentCreated_idempotent]. *)
Lemma apply_idempotent e store :
  match e with
  | comment_created d =>
      truthy (_id d) = true \/
      (forall c, In c store -> truthy (backendId c) = true)
  | _ => True
  end ->
  apply e (apply e store) = apply e store.
Proof.
  destruct e; simpl; intro H.
  - now apply handleCommentCreated_idempotent.
  - apply handleCommentUpdated_idempotent.
  - apply handleCommentDeleted_idempotent.
  - reflexivity.
Qed.

(** What the updater of [saveTemporaryComment] puts in place of the
    pending record carries the identifier of the server record. *)
Lemma saveTemporaryComment_resolved comments tempId text storedName
  response record prev comment :
  find (fun c => (Types.id c =? tempId)%string) comments = Some comment ->
  ok response = true -> json_data response = Some record ->
  exists converted,
    backendId converted = Some (remoteId record) /\
    saveTemporaryComment comments tempId text storedName
      (Responded response) prev =
    (map (fun c => if (Types.id c =? tempId)%string then converted else c) prev,
     Resolved (Some converted)).
Proof.
  intros Hfind Hok Hdata. unfold saveTemporaryComment, createComment, json.
  rewrite Hfind, Hok, Hdata. simpl.
  destruct (truthy storedName); eexists; (split; [|reflexivity]); reflexivity.
Qed.

Lemma map_replace_one {A} (p : A -> bool) (v t : A) l1 l2 :
  p t = true -> (forall c, In c (l1 ++ l2) -> p c = false) ->
  map (fun c => if p c then v else c) (l1 ++ t :: l2) = (l1 ++ v :: l2)%list.
Proof.
  intros Ht Hn. rewrite map_app. simpl. rewrite Ht. f_equal; [|f_equal].
  - apply (overwrite_none p v). intros c Hc. apply Hn, in_or_app. now left.
  - apply (overwrite_none p v). intros c Hc. apply Hn, in_or_app. now right.
Qed.

(** The order the code handles: the create call answers first, the echo
    arrives afterwards. The pending record is the only one with its [id],
    no other entity carries the identifier, and the echo names it [_id]:
    the echo overwrites the persisted entity in place and the store holds
    the identifier once. *)
Lemma persist_then_echo_single l1 t l2 text storedName response record echo rid :
  (forall c, In c (l1 ++ l2) ->
     Types.id c <> Types.id t /\ backendId c <> Some rid) ->
  ok response = true -> json_data response = Some record ->
  remoteId record = rid -> _id echo = Some rid -> rid <> "" ->
  let prev := (l1 ++ t :: l2)%list in
  let final :=
    handleCommentCreated echo
      (fst (saveTemporaryComment prev (Types.id t) text storedName
              (Responded response) prev)) in
  final = (l1 ++ convertToFrontendComment echo :: l2)%list /\
  count_remoteId rid final = 1.
Proof.
  intros Hothers Hok Hdata Hrid Hecho Hne prev final.
  assert (Hfind : exists comment,
            find (fun c => (Types.id c =? Types.id t)%string) prev = Some comment).
  { destruct (find (fun c => (Types.id c =? Types.id t)%string) prev) eqn:E;
      [eauto|].
    assert (Hin : In t prev) by (apply in_or_app; right; now left).
    pose proof (find_none _ _ E t Hin) as Hn. simpl in Hn.
    rewrite String.eqb_refl in Hn. discriminate. }
  destruct Hfind as (comment & Hfind).
  destruct (saveTemporaryComment_resolved prev (Types.id t) text storedName
              response record prev comment Hfind Hok Hdata)
    as (converted & Hb & Hsave).
  assert (Hfinal : final = (l1 ++ convertToFrontendComment echo :: l2)%list).
  { unfold final. rewrite Hsave. simpl fst. unfold prev.
    rewrite map_replace_one.
    - rewrite handleCommentCreated_unfold.
      assert (Hr : replaces echo converted = true).
      { rewrite (replaces_by__id echo rid converted Hecho Hne), Hb, Hrid.
        apply strict_eq_refl. }
      assert (Hp : existsb (present echo) (l1 ++ converted :: l2) = true).
      { apply existsb_exists. exists converted. split.
        - apply in_or_app. right. now left.
        - rewrite created_tests_agree; [exact Hr|].
          right. rewrite Hecho. simpl. apply negb_true_iff.
          now apply String.eqb_neq. }
      rewrite Hp. unfold overwrite. apply map_replace_one; [exact Hr|].
      intros c Hc. rewrite (replaces_by__id echo rid c Hecho Hne).
      destruct (strict_eq (backendId c) (Some rid)) eqn:E; [|reflexivity].
      apply strict_eq_Some in E. now destruct (Hothers c Hc).
    - apply String.eqb_refl.
    - intros c Hc. apply String.eqb_neq. now destruct (Hothers c Hc). }
  split; [exact Hfinal|]. rewrite Hfinal.
  change (l1 ++ convertToFrontendComment echo :: l2)%list
    with (l1 ++ [convertToFrontendComment echo] ++ l2)%list.
  rewrite !count_remoteId_app.
  rewrite (count_remoteId_none rid l1), (count_remoteId_none rid l2).
  - unfold count_remoteId. cbn [filter]. rewrite backendId_convert.
    rewrite (remoteId_of__id echo rid Hecho Hne), strict_eq_refl. reflexivity.
  - intros c Hc. apply Hothers, in_or_app. now right.
  - intros c Hc. apply Hothers, in_or_app. now left.
Qed.

(** C1 (no duplication, echo before the persist response). The store holds
    one pending comment and [saveTemporaryComment] is in flight; the
    [comment_created] echo for ["c1"] is applied first and appends a
    confirmed entity, then the create call answers with ["c1"] and the
    pending record is replaced by a second entity with the same
    [backendId]: the store ends with two entities carrying ["c1"]. *)
Theorem C1_echo_before_persist_response_duplicates :
  let after_echo := handleCommentCreated record_c1 store_pending in
  let after_persist :=
    fst (saveTemporaryComment store_pending "temp-1" "hi" (Some "Ana")
           created_c1 after_echo) in
  count_remoteId "c1" store_pending = 0 /\
  count_remoteId "c1" after_echo = 1 /\
  map backendId after_persist = [Some "c1"; Some "c1"] /\
  count_remoteId "c1" after_persist = 2.
Proof. repeat split. Qed.

(** C2, as stated, fails: an [updated] event for ["c1"] on a store that
    holds only ["c0"] inserts nothing, so no entity carries ["c1"]
    afterwards. *)
Lemma C2_updated_for_unseen_id_inserts_nothing :
  count_remoteId "c1" [convertToFrontendComment record_c0] = 0 /\
  handleCommentUpdated record_c1_edited [convertToFrontendComment record_c0] =
    [convertToFrontendComment record_c0] /\
  count_remoteId "c1"
    (handleCommentUpdated record_c1_edited [convertToFrontendComment record_c0])
    <> 1.
Proof. repeat split. discriminate. Qed.

(** C2 (amended). For an [updated] event whose record carries a non-empty
    [_id]: the store keeps its length; at every position, an entity whose
    [backendId] is that identifier is replaced by the converted server
    record and any other entity is kept; when no entity carries the
    identifier the store is unchanged (nothing is inserted). *)
Theorem C2_updated_overwrites_in_place_and_never_inserts e rid prev :
  _id e = Some rid -> rid <> "" ->
  List.length (handleCommentUpdated e prev) = List.length prev /\
  (forall i c, nth_error prev i = Some c ->
     nth_error (handleCommentUpdated e prev) i =
     Some (if strict_eq (backendId c) (Some rid)
           then convertToFrontendComment e else c)) /\
  (count_remoteId rid prev = 0 -> handleCommentUpdated e prev = prev).
Proof.
  intros H Hne. rewrite handleCommentUpdated_overwrite. split; [|split].
  - apply overwrite_length.
  - intros i c Hc. rewrite (overwrite_nth _ _ _ _ _ Hc).
    now rewrite (replaces_by__id e rid c H Hne).
  - intro Hz. apply overwrite_none. intros c Hc.
    rewrite (replaces_by__id e rid c H Hne).
    destruct (strict_eq (backendId c) (Some rid)) eqn:E; [|reflexivity].
    exfalso. unfold count_remoteId in Hz.
    assert (Hin : In c (filter (fun c => strict_eq (backendId c) (Some rid)) prev))
      by (apply filter_In; now split).
    destruct (filter _ prev); [contradiction | discriminate].
Qed.

Lemma C2_updated_overwrites_in_place_witness :
  let store := [convertToFrontendComment record_c0;
                convertToFrontendComment record_c1] in
  List.length (handleCommentUpdated record_c1_edited store) = 2 /\
  nth_error (handleCommentUpdated record_c1_edited store) 1 =
    Some (convertToFrontendComment record_c1_edited) /\
  nth_error (handleCommentUpdated record_c1_edited store) 0 =
    Some (convertToFrontendComment record_c0).
Proof.
  intro store.
  destruct (C2_updated_overwrites_in_place_and_never_inserts
              record_c1_edited "c1" store) as (Hlen & Hnth & _).
  - reflexivity.
  - discriminate.
  - split; [exact Hlen|]. split.
    + exact (Hnth 1 (convertToFrontendComment record_c1) eq_refl).
    + exact (Hnth 0 (convertToFrontendComment record_c0) eq_refl).
Defined.

(** C4 (idempotence, the failing replay). The store holds one pending
    comment and the [created] record names its identifier [id] instead of
    [_id]. The first application appends the confirmed entity; the second
    finds it, and its overwrite also selects the pending record, whose
    absent [backendId] equals the absent [_id]. *)
Theorem C4_replayed_created_event_overwrites_pending :
  let e := comment_created record_c1_by_id in
  let confirmed := convertToFrontendComment record_c1_by_id in
  apply e store_pending = [pending; confirmed] /\
  apply e (apply e store_pending) = [confirmed; confirmed] /\
  apply e (apply e store_pending) <> apply e store_pending.
Proof. repeat split. discriminate. Qed.

(** The create call throws when the request fails, when the status is not
    a success, or when the body of a success is not JSON; otherwise it
    resolves. *)
Lemma createComment_rejects net :
  (exists error, createComment net = Rejected error) <->
  match net with
  | NetworkFailure _ => True
  | Responded response => ok response = false \/ json_data response = None
  end.
Proof.
  destruct net as [response|e]; simpl; [|split; eauto].
  unfold json. destruct (ok response); simpl.
  - destruct (json_data response); split.
    + intros (error & H). discriminate.
    + intros [H|H]; discriminate.
    + now right.
    + eauto.
  - split; [now left | eauto].
Qed.

(** Without a record named [tempId] nothing is sent and nothing changes. *)
Lemma saveTemporaryComment_unknown comments tempId text storedName net prev :
  find (fun c => (Types.id c =? tempId)%string) comments = None ->
  saveTemporaryComment comments tempId text storedName net prev =
  (prev, Resolved None).
Proof. intro H. unfold saveTemporaryComment. now rewrite H. Qed.

(** C5. When the create call throws, [saveTemporaryComment] rejects with
    the same error and the store is the one it found. *)
Theorem C5_persist_failure_leaves_store_untouched
  comments tempId text storedName net prev comment error :
  find (fun c => (Types.id c =? tempId)%string) comments = Some comment ->
  createComment net = Rejected error ->
  saveTemporaryComment comments tempId text storedName net prev =
  (prev, Rejected error).
Proof.
  intros Hfind Hthrow. unfold saveTemporaryComment.
  now rewrite Hfind, Hthrow.
Qed.

Lemma C5_persist_failure_witness :
  saveTemporaryComment store_pending "temp-1" "hi" (Some "Ana")
    (Responded (mkResponse 500 "Internal Server Error" None NoDetail))
    store_pending =
  (store_pending,
   Rejected (Error "Error creating comment: 500 - Internal Server Error")).
Proof.
  apply (C5_persist_failure_leaves_store_untouched _ _ _ _ _ _ pending);
    reflexivity.
Defined.

End StoreClaims.

(* ================================================================== *)
(** * The connection managers: reconnection *)
(* ================================================================== *)

Section Reconnection.

Lemma comments_onclose_arms refs :
  (useCommentsWebSocket.reconnectAttemptsRef refs < 5)%Z ->
  useCommentsWebSocket.onclose refs =
  (useCommentsWebSocket.mkRefs None
     (Some (Z.min (1000 * 2 ^ (useCommentsWebSocket.reconnectAttemptsRef refs + 1))
                  10000))
     (useCommentsWebSocket.reconnectAttemptsRef refs + 1),
   [setTimeout
      (Z.min (1000 * 2 ^ (useCommentsWebSocket.reconnectAttemptsRef refs + 1))
             10000)]).
Proof.
  intro H. unfold useCommentsWebSocket.onclose,
    useCommentsWebSocket.maxReconnectAttempts.
  destruct (Z.ltb_spec (useCommentsWebSocket.reconnectAttemptsRef refs) 5);
    [reflexivity | lia].
Qed.

Lemma comments_onclose_gives_up refs :
  (5 <= useCommentsWebSocket.reconnectAttemptsRef refs)%Z ->
  useCommentsWebSocket.onclose refs =
  (useCommentsWebSocket.mkRefs None
     (useCommentsWebSocket.reconnectTimeoutRef refs)
     (useCommentsWebSocket.reconnectAttemptsRef refs),
   [console_error "[Comments WS] Max reconnection attempts reached"]).
Proof.
  intro H. unfold useCommentsWebSocket.onclose,
    useCommentsWebSocket.maxReconnectAttempts.
  destruct (Z.ltb_spec (useCommentsWebSocket.reconnectAttemptsRef refs) 5);
    [lia | reflexivity].
Qed.

(** Once the limit is reached no timer is armed again, however many
    closes follow. *)
Lemma comments_losses_exhausted n : forall refs,
  (5 <= useCommentsWebSocket.reconnectAttemptsRef refs)%Z ->
  delays (comments_losses n refs) = [].
Proof.
  induction n as [|n IH]; intros refs H; [reflexivity|].
  simpl. unfold comments_loss. rewrite (comments_onclose_gives_up refs H).
  simpl. apply IH. exact H.
Qed.

Lemma delays_app a b : delays (a ++ b) = (delays a ++ delays b)%list.
Proof.
  induction a as [|e a IH]; [reflexivity|].
  destruct e; simpl; now rewrite IH.
Qed.

Lemma comments_losses_S n refs :
  comments_losses (S n) refs =
  (snd (comments_loss refs) ++ comments_losses n (fst (comments_loss refs)))%list.
Proof. simpl. now destruct (comments_loss refs). Qed.

(** The comment stream, from a connected hook: five timers, with these
    delays, and none after them. *)
Lemma comments_delays n :
  delays (comments_losses (5 + n) comments_connected) =
  [2000; 4000; 8000; 10000; 10000]%Z.
Proof.
  change (5 + n) with (S (S (S (S (S n))))).
  rewrite !comments_losses_S, !delays_app.
  rewrite comments_losses_exhausted; [reflexivity|].
  vm_compute. discriminate.
Qed.

Lemma chat_onclose_arms st :
  (useChatWebSocket.reconnectAttemptsRef st < 5)%Z ->
  useChatWebSocket.onclose st =
  (useChatWebSocket.set_reconnectTimeoutRef
     (Some (Z.min (1000 * 2 ^ useChatWebSocket.reconnectAttemptsRef st) 10000))
     (useChatWebSocket.setIsConnected false st),
   [setTimeout
      (Z.min (1000 * 2 ^ useChatWebSocket.reconnectAttemptsRef st) 10000)]).
Proof.
  intro H. unfold useChatWebSocket.onclose. simpl.
  destruct (Z.ltb_spec (useChatWebSocket.reconnectAttemptsRef st) 5);
    [reflexivity | lia].
Qed.

Lemma chat_onclose_gives_up st :
  (5 <= useChatWebSocket.reconnectAttemptsRef st)%Z ->
  useChatWebSocket.onclose st =
  (useChatWebSocket.setError
     (Some "Failed to connect after multiple attempts")
     (useChatWebSocket.setIsConnected false st),
   []).
Proof.
  intro H. unfold useChatWebSocket.onclose. simpl.
  destruct (Z.ltb_spec (useChatWebSocket.reconnectAttemptsRef st) 5);
    [lia | reflexivity].
Qed.

Lemma chat_losses_exhausted n : forall st,
  (5 <= useChatWebSocket.reconnectAttemptsRef st)%Z ->
  delays (flat_map snd (chat_losses n st)) = [].
Proof.
  induction n as [|n IH]; intros st H; [reflexivity|].
  simpl. unfold chat_loss. rewrite chat_onclose_gives_up by exact H.
  simpl. apply IH. exact H.
Qed.

Lemma chat_losses_S n st :
  chat_losses (S n) st = chat_loss st :: chat_losses n (fst (chat_loss st)).
Proof. simpl. now destruct (chat_loss st). Qed.

(** The chat stream, from a connected hook: five timers, the first after
    one second, and none after them. *)
Lemma chat_delays n :
  delays (flat_map snd (chat_losses (5 + n) chat_connected)) =
  [1000; 2000; 4000; 8000; 10000]%Z.
Proof.
  change (5 + n) with (S (S (S (S (S n))))).
  rewrite !chat_losses_S. cbn [flat_map]. rewrite !delays_app.
  rewrite chat_losses_exhausted; [reflexivity|].
  vm_compute. discriminate.
Qed.

(** C3, as stated, fails on the chat stream: after an open connection is
    lost, the first reconnection is armed after 1000 ms, and the five
    delays are not 2000, 4000, 8000, 10000, 10000. *)
Lemma C3_chat_delays_start_at_1000 :
  delays (snd (useChatWebSocket.onclose chat_connected)) = [1000%Z] /\
  delays (flat_map snd (chat_losses 5 chat_connected)) <>
    [2000; 4000; 8000; 10000; 10000]%Z.
Proof. split; [reflexivity | discriminate]. Qed.

(** C3 (amended). On every close with fewer than 5 attempts counted, a
    reconnection is armed: by the comment stream after
    [min(1000 * 2^(attempts+1), 10000)] ms, by the chat stream after
    [min(1000 * 2^attempts, 10000)] ms, [attempts] being the counter when
    the close arrives. From a connected hook the five delays are 2000,
    4000, 8000, 10000, 10000 on the comment stream and 1000, 2000, 4000,
    8000, 10000 on the chat stream, and no timer is armed after them. With
    5 attempts counted, a close arms nothing: the comment stream logs that
    the limit is reached, the chat stream sets its [error] state. *)
Theorem C3_reconnect_backoff :
  (forall refs,
     (0 <= useCommentsWebSocket.reconnectAttemptsRef refs < 5)%Z ->
     snd (useCommentsWebSocket.onclose refs) =
     [setTimeout
        (Z.min (1000 * 2 ^ (useCommentsWebSocket.reconnectAttemptsRef refs + 1))
               10000)]) /\
  (forall n,
     delays (comments_losses (5 + n) comments_connected) =
     [2000; 4000; 8000; 10000; 10000]%Z) /\
  (forall refs,
     (5 <= useCommentsWebSocket.reconnectAttemptsRef refs)%Z ->
     snd (useCommentsWebSocket.onclose refs) =
     [console_error "[Comments WS] Max reconnection attempts reached"]) /\
  (forall st,
     (0 <= useChatWebSocket.reconnectAttemptsRef st < 5)%Z ->
     snd (useChatWebSocket.onclose st) =
     [setTimeout
        (Z.min (1000 * 2 ^ useChatWebSocket.reconnectAttemptsRef st) 10000)]) /\
  (forall n,
     delays (flat_map snd (chat_losses (5 + n) chat_connected)) =
     [1000; 2000; 4000; 8000; 10000]%Z) /\
  (forall st,
     (5 <= useChatWebSocket.reconnectAttemptsRef st)%Z ->
     snd (useChatWebSocket.onclose st) = [] /\
     useChatWebSocket.error (fst (useChatWebSocket.onclose st)) =
     Some "Failed to connect after multiple attempts").
Proof.
  repeat apply conj.
  - intros refs [_ H]. now rewrite (comments_onclose_arms refs H).
  - apply comments_delays.
  - intros refs H. now rewrite (comments_onclose_gives_up refs H).
  - intros st [_ H]. now rewrite (chat_onclose_arms st H).
  - apply chat_delays.
  - intros st H. now rewrite (chat_onclose_gives_up st H).
Qed.

Lemma C3_reconnect_backoff_witness :
  snd (useCommentsWebSocket.onclose comments_connected) = [setTimeout 2000] /\
  snd (useCommentsWebSocket.onclose (useCommentsWebSocket.mkRefs None None 5)) =
    [console_error "[Comments WS] Max reconnection attempts reached"] /\
  snd (useChatWebSocket.onclose chat_connected) = [setTimeout 1000] /\
  useChatWebSocket.error
    (fst (useChatWebSocket.onclose
            (useChatWebSocket.set_reconnectAttemptsRef 5 chat_connected))) =
    Some "Failed to connect after multiple attempts".
Proof.
  destruct C3_reconnect_backoff as (Hc & _ & Hcx & Hh & _ & Hhx).
  split; [|split; [|split]].
  - apply (Hc comments_connected). simpl. lia.
  - apply (Hcx (useCommentsWebSocket.mkRefs None None 5)). simpl. lia.
  - apply (Hh chat_connected). simpl. lia.
  - apply (Hhx (useChatWebSocket.set_reconnectAttemptsRef 5 chat_connected)).
    simpl. lia.
Defined.

End Reconnection.

(* ================================================================== *)
(** * [String.prototype.trim] *)
(* ================================================================== *)

Section Trim.
Import Js.







Lemma all_whitespace_app (a b : jsstring) :
  all_whitespace (a ++ b)%list = all_whitespace a && all_whitespace b.
Proof.
  induction a as [|c r IH]; simpl; [reflexivity|].
  now rewrite IH, andb_assoc.
Qed.

Lemma trimStart_split (s : jsstring) :
  exists a, s = (a ++ trimStart s)%list /\ all_whitespace a = true.
Proof.
  induction s as [|c r (a & Ha & Hw)]; simpl.
  - now exists [].
  - destruct (is_whitespace c) eqn:E.
    + exists (c :: a). simpl. rewrite E, Hw. split; [now f_equal | reflexivity].
    + now exists [].
Qed.

Lemma trimEnd_split (s : jsstring) :
  exists b, s = (trimEnd s ++ b)%list /\ all_whitespace b = true.
Proof.
  induction s as [|c r (b & Hb & Hw)]; simpl.
  - now exists [].
  - destruct (trimEnd r) as [|d r'] eqn:E.
    + simpl in Hb. subst r. destruct (is_whitespace c) eqn:Ec.
      * exists (c :: b). simpl. now rewrite Ec, Hw.
      * now exists b.
    + exists b. simpl. split; [now f_equal | exact Hw].
Qed.

(** [trim s] is [s] without a whitespace prefix and a whitespace suffix. *)
Lemma trim_split (s : jsstring) :
  exists a b,
    s = (a ++ trim s ++ b)%list /\
    all_whitespace a = true /\ all_whitespace b = true.
Proof.
  destruct (trimStart_split s) as (a & Ha & Hwa).
  destruct (trimEnd_split (trimStart s)) as (b & Hb & Hwb).
  exists a, b. unfold trim. now rewrite <- Hb.
Qed.

(** [trim s] does not start with whitespace. *)
Lemma trimStart_head s c r :
  trimStart s = c :: r -> is_whitespace c = false.
Proof.
  induction s as [|d t IH]; simpl; [discriminate|].
  destruct (is_whitespace d) eqn:E; [exact IH|].
  intro H. injection H as -> _. exact E.
Qed.

Lemma trimEnd_head s c r :
  trimEnd s = c :: r -> exists t, s = c :: t.
Proof.
  destruct s as [|d t]; simpl; [discriminate|].
  destruct (trimEnd t); [destruct (is_whitespace d)|]; intro H;
    try discriminate; injection H as -> _; eauto.
Qed.

Lemma trim_head s c r : trim s = c :: r -> is_whitespace c = false.
Proof.
  unfold trim. intro H. destruct (trimEnd_head _ _ _ H) as (t & Ht).
  exact (trimStart_head _ _ _ Ht).
Qed.

(** [trim s] does not end with whitespace. *)
Lemma trimEnd_last s r c :
  trimEnd s = (r ++ [c])%list -> is_whitespace c = false.
Proof.
  revert r. induction s as [|d t IH]; intros r; simpl.
  - destruct r; discriminate.
  - destruct (trimEnd t) as [|e t'] eqn:E.
    + destruct (is_whitespace d) eqn:Ed.
      * destruct r; discriminate.
      * destruct r as [|x [|y r]]; simpl; intro H; try discriminate.
        injection H as ->. exact Ed.
    + destruct r as [|x r]; simpl; intro H; [discriminate|].
      injection H as _ H. exact (IH r H).
Qed.

Lemma trim_last s r c :
  trim s = (r ++ [c])%list -> is_whitespace c = false.
Proof. apply trimEnd_last. Qed.

(** The white space beyond the 8-bit range is stripped like a space. *)
Example trim_ideographic_space :
  trim [12288; 104; 105; 8232; 65279]%N = [104; 105]%N /\
  all_whitespace [12288; 8195; 5760; 8239; 8287; 8233; 160; 9]%N = true.
Proof. split; reflexivity. Qed.

End Trim.

(* ================================================================== *)
(** * Outbound frames *)
(* ================================================================== *)

Section Outbound.
Import Js.
Import useChatWebSocket.

Lemma not_open_cases st :
  not_open st = true ->
  wsRef st = None \/
  exists ws, wsRef st = Some ws /\
    WebSocket.ReadyState_eqb (WebSocket.readyState ws) WebSocket.OPEN = false.
Proof.
  unfold not_open. destruct (wsRef st) as [ws|]; [|now left].
  intro H. right. exists ws. split; [reflexivity|].
  now apply negb_true_iff.
Qed.


Lemma sendMessage_not_open message st :
  not_open st = true ->
  sendMessage message st =
  Resolved (false, (setError (Some "Not connected to chat") st, [])).
Proof.
  intro H. unfold sendMessage.
  destruct (not_open_cases st H) as [E | (ws & E & Hs)]; rewrite E;
    [reflexivity | now rewrite Hs].
Qed.

Lemma sendChatWsEvent_not_open type data st :
  not_open st = true ->
  sendChatWsEvent type data st = Resolved (false, (st, [])).
Proof.
  intro H. unfold sendChatWsEvent.
  destruct (not_open_cases st H) as [E | (ws & E & Hs)]; rewrite E;
    [reflexivity | now rewrite Hs].
Qed.

Lemma service_sendMessage_not_open
  now random iso message userId username dashboardId svc :
  ChatApiService.isConnected svc = false ->
  ChatApiService.sendMessage now random iso message userId username
    dashboardId svc =
  Resolved (tt, (svc, [], [console_error "WebSocket is not connected"])).
Proof.
  unfold ChatApiService.isConnected, ChatApiService.sendMessage.
  destruct (ChatApiService.ws svc) as [w|]; [|reflexivity].
  now intros ->.
Qed.

(** C6, as stated, fails for [ChatApiService.sendMessage]: with no open
    socket it returns [undefined], not [false]. *)
Lemma C6_service_sendMessage_returns_undefined :
  returned_value
    (ChatApiService.sendMessage 1 "0.5" "2025-01-01T00:00:00.000Z"
       "hello" "u1" "Ana" "d1" (ChatApiService.mkService None)) =
  Some undefined /\
  returned_value
    (ChatApiService.sendMessage 1 "0.5" "2025-01-01T00:00:00.000Z"
       "hello" "u1" "Ana" "d1" (ChatApiService.mkService None)) <>
  Some (boolean false).
Proof. split; [reflexivity | discriminate]. Qed.

(** C6 (amended). While the socket is not [OPEN], none of the three send
    operations throws, transmits or keeps the frame: the hook's
    [sendMessage] returns [false] and only sets the [error] state,
    [window.sendChatWsEvent] returns [false] and changes nothing, and
    [ChatApiService.sendMessage] returns [undefined], notifies no
    subscriber and logs an error. The state left behind does not hold the
    frame, and when the hook's socket opens afterwards the wire is as it
    was. *)
Theorem C6_send_while_not_open_fails_without_queuing :
  (forall message st,
     not_open st = true ->
     sendMessage message st =
       Resolved (false, (setError (Some "Not connected to chat") st, [])) /\
     chat_wire (chat_socket_opens (setError (Some "Not connected to chat") st))
       = chat_wire st) /\
  (forall type data st,
     not_open st = true ->
     sendChatWsEvent type data st = Resolved (false, (st, [])) /\
     chat_wire (chat_socket_opens st) = chat_wire st) /\
  (forall now random iso message userId username dashboardId svc,
     ChatApiService.isConnected svc = false ->
     ChatApiService.sendMessage now random iso message userId username
       dashboardId svc =
     Resolved (tt, (svc, [], [console_error "WebSocket is not connected"]))).
Proof.
  split; [|split].
  - intros message st H. split; [now apply sendMessage_not_open|].
    unfold chat_wire, chat_socket_opens. simpl. now destruct (wsRef st).
  - intros type data st H. split; [now apply sendChatWsEvent_not_open|].
    unfold chat_wire, chat_socket_opens. simpl. now destruct (wsRef st).
  - intros. now apply service_sendMessage_not_open.
Qed.

Lemma C6_send_while_not_open_witness :
  sendMessage "hello" (connectWebSocket initial) =
    Resolved (false,
              (setError (Some "Not connected to chat")
                        (connectWebSocket initial), [])) /\
  sendChatWsEvent "cursor" (serializable JNull) initial =
    Resolved (false, (initial, [])) /\
  ChatApiService.sendMessage 1 "0.5" "2025-01-01T00:00:00.000Z"
    "hello" "u1" "Ana" "d1"
    (ChatApiService.mkService (Some (WebSocket.closed WebSocket.new))) =
  Resolved (tt, (ChatApiService.mkService (Some (WebSocket.closed WebSocket.new)),
                 [], [console_error "WebSocket is not connected"])).
Proof.
  destruct C6_send_while_not_open_fails_without_queuing as (H1 & H2 & H3).
  split; [|split].
  - apply (H1 "hello" (connectWebSocket initial)). reflexivity.
  - apply (H2 "cursor" (serializable JNull) initial). reflexivity.
  - apply H3. reflexivity.
Defined.




End Outbound.

(* ================================================================== *)
(** * Inbound frames *)
(* ================================================================== *)

Section InboundFrames.
Import Js.

(** C9. A frame that [JSON.parse] rejects is dropped by both message
    handlers: the handler completes normally, logs one error, and leaves
    the state as it was: messages, connected users, error and socket for
    the chat hook; the refs (hence the socket) and the owner's store,
    whatever the callbacks, for the comment hook. *)
Theorem C9_unparseable_frame_is_dropped :
  (forall JSON_parse now data st,
     JSON_parse data = None ->
     useChatWebSocket.onmessage JSON_parse now data st =
     Resolved (st, [console_error "Error parsing WebSocket message:"])) /\
  (forall (S : Type) onCommentCreated onCommentUpdated onCommentDeleted
          JSON_parse data (refs : useCommentsWebSocket.Refs) (store : S),
     JSON_parse data = None ->
     useCommentsWebSocket.onmessage S onCommentCreated onCommentUpdated
       onCommentDeleted JSON_parse data (refs, store) =
     Resolved ((refs, store),
               [console_error "[Comments WS] Error processing message:"])).
Proof.
  split.
  - intros JSON_parse now data st H.
    unfold useChatWebSocket.onmessage, useChatWebSocket.onmessage_try.
    now rewrite H.
  - intros S f g h JSON_parse data refs store H.
    unfold useCommentsWebSocket.onmessage, useCommentsWebSocket.onmessage_try.
    now rewrite H.
Qed.

Lemma C9_unparseable_frame_witness :
  useChatWebSocket.onmessage parse_chat_sample 1 frame_truncated chat_connected =
    Resolved (chat_connected,
              [console_error "Error parsing WebSocket message:"]) /\
  CommentSync.onmessage parse_comments_sample frame_truncated
    (comments_connected, Sample.store_pending) =
    Resolved ((comments_connected, Sample.store_pending),
              [console_error "[Comments WS] Error processing message:"]).
Proof.
  destruct C9_unparseable_frame_is_dropped as (H1 & H2). split.
  - apply (H1 parse_chat_sample 1%Z frame_truncated chat_connected).
    reflexivity.
  - apply (H2 _ _ _ _ parse_comments_sample frame_truncated).
    reflexivity.
Defined.

(** A frame that does decode reaches the stores. *)
Example users_list_frame_is_applied :
  useChatWebSocket.onmessage parse_chat_sample 1 frame_users_list chat_connected =
  Resolved (useChatWebSocket.setConnectedUsers [] chat_connected, []).
Proof. reflexivity. Qed.

Example comment_deleted_frame_is_applied :
  CommentSync.onmessage parse_comments_sample frame_comment_deleted
    (comments_connected,
     [CommentsApiService.convertToFrontendComment Sample.record_c1]) =
  Resolved ((comments_connected, []), []).
Proof. reflexivity. Qed.

End InboundFrames.

(* ================================================================== *)
(** * The REST wrappers *)
(* ================================================================== *)

Section Gateway.
Import Js Http CommentsApiService.

Lemma not_ok_404 {A} (response : Response A) :
  status response = 404%Z -> ok response = false.
Proof. intro H. unfold ok. now rewrite H. Qed.

Lemma getCommentsByDashboard_404 (response : Response (list CommentResponse)) :
  status response = 404%Z ->
  getCommentsByDashboard (Responded response) = Resolved [].
Proof.
  intro H. unfold getCommentsByDashboard. rewrite (not_ok_404 response H).
  simpl. now rewrite H.
Qed.

Lemma getCommentsByDashboard_failure
  (response : Response (list CommentResponse)) :
  ok response = false -> status response <> 404%Z ->
  getCommentsByDashboard (Responded response) =
  Rejected (Error ("Error fetching comments: " ++ show (status response) ++
                   " - " ++ statusText response)).
Proof.
  intros H Hne. unfold getCommentsByDashboard. rewrite H. simpl.
  destruct (Z.eqb_spec (status response) 404); [contradiction | reflexivity].
Qed.

(** C7. A 404 on the list call resolves to the empty list; any other
    non-success status rejects with an error. *)
Theorem C7_list_404_is_empty_other_failures_reject :
  (forall response : Response (list CommentResponse),
     status response = 404%Z ->
     getCommentsByDashboard (Responded response) = Resolved []) /\
  (forall response : Response (list CommentResponse),
     ok response = false -> status response <> 404%Z ->
     getCommentsByDashboard (Responded response) =
     Rejected (Error ("Error fetching comments: " ++ show (status response) ++
                      " - " ++ statusText response))).
Proof.
  split; intros response H.
  - now apply getCommentsByDashboard_404.
  - intro Hne. now apply getCommentsByDashboard_failure.
Qed.

Lemma C7_list_witness :
  getCommentsByDashboard
    (Responded (mkResponse 404 "Not Found" None (DetailText "Not Found"))) =
    Resolved [] /\
  getCommentsByDashboard
    (Responded (mkResponse 500 "Internal Server Error" None NoDetail)) =
    Rejected (Error "Error fetching comments: 500 - Internal Server Error").
Proof.
  destruct C7_list_404_is_empty_other_failures_reject as (H1 & H2). split.
  - apply H1. reflexivity.
  - apply (H2 (mkResponse 500 "Internal Server Error" None NoDetail)).
    + reflexivity.
    + discriminate.
Defined.












End Gateway.

(* ================================================================== *)
(** * The comment store: loading, temporary comments, moves *)
(* ================================================================== *)

Section StoreOperations.
Import Js Http Types CommentsApiService.
Import useComments CommentSync.

(** The existence test of [handleCommentCreated] holds exactly of the
    entities that carry the record's identifier. *)
Lemma present_remoteId e c :
  present e c = strict_eq (backendId c) (Some (remoteId e)).
Proof.
  unfold present. rewrite backendId_convert.
  destruct (strict_eq (backendId c) (Some (remoteId e))) eqn:E; [reflexivity|].
  simpl. destruct (backendId c) as [b|]; [|reflexivity]. simpl.
  destruct (String.eqb_spec b ""); [reflexivity|]. simpl.
  destruct (_id e) as [s|] eqn:Es; [|reflexivity]. simpl.
  destruct (String.eqb_spec b s); [|reflexivity]. subst s.
  rewrite <- E. simpl. symmetry. apply String.eqb_eq. symmetry.
  now apply remoteId_of__id.
Qed.

Lemma existsb_present e prev :
  existsb (present e) prev = negb (count_remoteId (remoteId e) prev =? 0)%nat.
Proof.
  unfold count_remoteId. induction prev as [|c l IH]; [reflexivity|].
  simpl. rewrite present_remoteId.
  destruct (strict_eq (backendId c) (Some (remoteId e))); [reflexivity|].
  exact IH.
Qed.

(** X11. A [created] event lengthens the store by one when no entity
    carries its identifier and keeps the length otherwise; afterwards the
    identifier is in the store. *)
Theorem handleCommentCreated_length e prev :
  List.length (handleCommentCreated e prev) =
    List.length prev +
    (if (count_remoteId (remoteId e) prev =? 0)%nat then 1 else 0) /\
  1 <= count_remoteId (remoteId e) (handleCommentCreated e prev).
Proof.
  rewrite handleCommentCreated_unfold, existsb_present.
  destruct (count_remoteId (remoteId e) prev =? 0)%nat eqn:E; simpl.
  - split.
    + now rewrite length_app.
    + rewrite count_remoteId_app. unfold count_remoteId at 2. cbn [filter].
      rewrite backendId_convert, strict_eq_refl. cbn [List.length]. lia.
  - split; [rewrite overwrite_length; lia|].
    apply Nat.eqb_neq in E. unfold count_remoteId in *.
    destruct (filter _ prev) as [|c l] eqn:F; [contradiction|].
    assert (Hc : In c (filter (fun c => strict_eq (backendId c)
                                  (Some (remoteId e))) prev))
      by (rewrite F; now left).
    apply filter_In in Hc. destruct Hc as [Hin Hb].
    assert (Hin' : In (convertToFrontendComment e)
              (filter (fun c => strict_eq (backendId c) (Some (remoteId e)))
                 (overwrite (replaces e) (convertToFrontendComment e) prev))).
    { apply filter_In. split.
      - unfold overwrite. apply in_map_iff. exists c. split; [|exact Hin].
        assert (Hr : replaces e c = true).
        { apply present_replaces. now rewrite present_remoteId. }
        now rewrite Hr.
      - rewrite backendId_convert. apply strict_eq_refl. }
    destruct (filter _ (overwrite _ _ prev)); [contradiction | simpl; lia].
Qed.

(** X10. A [created] event for an identifier the store does not hold,
    followed by the [deleted] event for that identifier, gives the store
    back. *)
Theorem created_then_deleted e prev :
  count_remoteId (remoteId e) prev = 0 ->
  handleCommentDeleted (AString (remoteId e)) (handleCommentCreated e prev) =
  prev.
Proof.
  intro H. rewrite handleCommentCreated_unfold, existsb_present, H. simpl.
  unfold handleCommentDeleted. rewrite filter_app. cbn [filter strict_eq_any].
  rewrite backendId_convert, strict_eq_refl. cbn [negb]. rewrite app_nil_r.
  change (handleCommentDeleted (AString (remoteId e)) prev = prev).
  apply handleCommentDeleted_absent. intros c Hc Hb.
  unfold count_remoteId in H.
  assert (Hin : In c (filter (fun c => strict_eq (backendId c)
                                (Some (remoteId e))) prev)).
  { apply filter_In. split; [exact Hc|]. now apply strict_eq_Some. }
  destruct (filter _ prev); [contradiction | discriminate].
Qed.

Lemma created_then_deleted_witness :
  handleCommentDeleted (AString "c1")
    (handleCommentCreated Sample.record_c1 Sample.store_pending) =
  Sample.store_pending.
Proof. apply (created_then_deleted Sample.record_c1). reflexivity. Defined.

Lemma filter_all {A} (f : A -> bool) l :
  (forall a, In a l -> f a = true) -> filter f l = l.
Proof.
  induction l as [|a l IH]; intro H; [reflexivity|]. simpl.
  rewrite (H a (or_introl eq_refl)). f_equal. apply IH.
  intros b Hb. apply H. now right.
Qed.

Lemma filter_none {A} (f : A -> bool) l :
  (forall a, In a l -> f a = false) -> filter f l = [].
Proof.
  induction l as [|a l IH]; intro H; [reflexivity|]. simpl.
  rewrite (H a (or_introl eq_refl)). apply IH.
  intros b Hb. apply H. now right.
Qed.

Lemma filter_twice {A} (f : A -> bool) l : filter f (filter f l) = filter f l.
Proof. apply filter_all. intros a Ha. now apply filter_In in Ha. Qed.

(** X1. Merging the same server list into the store twice is merging it
    once, so a repeated load of the same answer changes nothing more. *)
Theorem loadComments_idempotent engine_message net st :
  loadComments engine_message net
    (fst (loadComments engine_message net st)) =
  loadComments engine_message net st.
Proof.
  unfold loadComments. destruct (getCommentsByDashboard net) as [l|err];
    [|reflexivity].
  simpl. f_equal. f_equal.
  set (F := map convertToFrontendComment l).
  unfold merge_loaded. f_equal.
  set (temp := fun c : CommentDef => String.prefix "temp-" (Types.id c)).
  set (keep := fun t : CommentDef =>
         negb (existsb (fun fc => strict_eq (backendId fc) (backendId t) ||
                                  (Types.id fc =? Types.id t)%string) F)).
  rewrite !filter_app.
  rewrite (filter_none keep (filter temp F)).
  - simpl. rewrite (filter_all temp (filter keep (filter temp (comments st)))).
    + apply filter_twice.
    + intros a Ha. apply filter_In in Ha. destruct Ha as [Ha _].
      now apply filter_In in Ha.
  - intros a Ha. apply filter_In in Ha. destruct Ha as [Ha _].
    unfold keep. apply negb_false_iff, existsb_exists. exists a.
    split; [exact Ha|]. now rewrite strict_eq_refl.
Qed.

(** X2. After a successful load the store is the server's comments, in
    the server's order, followed by temporary comments of the previous
    store; a temporary comment without a [backendId] whose [id] the
    server did not return is among them. *)
Theorem loadComments_keeps_pending engine_message net st l :
  getCommentsByDashboard net = Resolved l ->
  exists kept,
    comments (fst (loadComments engine_message net st)) =
      (map convertToFrontendComment l ++ kept)%list /\
    (forall c, In c kept ->
       In c (comments st) /\ String.prefix "temp-" (Types.id c) = true) /\
    (forall c, In c (comments st) ->
       String.prefix "temp-" (Types.id c) = true ->
       backendId c = None ->
       (forall r, In r l -> remoteId r <> Types.id c) ->
       In c kept).
Proof.
  intro H. unfold loadComments. rewrite H. simpl. unfold merge_loaded.
  eexists. split; [reflexivity|]. split.
  - intros c Hc. apply filter_In in Hc. destruct Hc as [Hc _].
    now apply filter_In in Hc.
  - intros c Hc Ht Hb Hfresh. apply filter_In. split.
    + apply filter_In. now split.
    + apply negb_true_iff.
      destruct (existsb _ (map convertToFrontendComment l)) eqn:E;
        [|reflexivity].
      apply existsb_exists in E. destruct E as (fc & Hfc & Hm).
      apply in_map_iff in Hfc. destruct Hfc as (r & <- & Hr).
      rewrite Hb in Hm. simpl in Hm. apply String.eqb_eq in Hm.
      exfalso. exact (Hfresh r Hr Hm).
Qed.

Lemma loadComments_keeps_pending_witness :
  exists kept,
    comments
      (fst (loadComments (fun _ => "")
              (Responded (mkResponse 200 "OK" (Some [Sample.record_c0]) NoDetail))
              (mkState Sample.store_pending true None))) =
      (map convertToFrontendComment [Sample.record_c0] ++ kept)%list /\
    In Sample.pending kept.
Proof.
  destruct (loadComments_keeps_pending (fun _ => "")
              (Responded (mkResponse 200 "OK" (Some [Sample.record_c0]) NoDetail))
              (mkState Sample.store_pending true None) [Sample.record_c0]
              eq_refl) as (kept & Hk & _ & Hin).
  exists kept. split; [exact Hk|]. apply Hin.
  - now left.
  - reflexivity.
  - reflexivity.
  - intros r [<-|[]]. discriminate.
Defined.

Lemma count_remoteId_converted rid l :
  NoDup (map remoteId l) -> In rid (map remoteId l) ->
  count_remoteId rid (map convertToFrontendComment l) = 1.
Proof.
  induction l as [|r l IH]; intros Hnd Hin; [contradiction|].
  simpl in Hnd. inversion Hnd as [|? ? Hnotin Hnd']; subst.
  change (map convertToFrontendComment (r :: l))
    with ([convertToFrontendComment r] ++ map convertToFrontendComment l)%list.
  rewrite count_remoteId_app. unfold count_remoteId at 1. cbn [filter].
  rewrite backendId_convert.
  destruct Hin as [Hin|Hin].
  - rewrite Hin, strict_eq_refl. cbn [List.length].
    rewrite count_remoteId_none; [reflexivity|].
    intros c Hc Hb. apply in_map_iff in Hc. destruct Hc as (r' & <- & Hr').
    rewrite backendId_convert in Hb. injection Hb as Hb.
    apply Hnotin. rewrite Hin. rewrite <- Hb. now apply in_map.
  - destruct (strict_eq (Some (remoteId r)) (Some rid)) eqn:E.
    + apply strict_eq_Some in E. injection E as E. subst rid. contradiction.
    + cbn [List.length]. now rewrite IH.
Qed.

(** X3. When the server's list names each comment once, every identifier
    it returns is carried by exactly one entity after the load, whatever
    the store held before. *)
Theorem loadComments_server_ids_once engine_message net st l rid :
  getCommentsByDashboard net = Resolved l ->
  NoDup (map remoteId l) -> In rid (map remoteId l) ->
  count_remoteId rid (comments (fst (loadComments engine_message net st))) = 1.
Proof.
  intros H Hnd Hin. unfold loadComments. rewrite H. simpl.
  unfold merge_loaded. rewrite count_remoteId_app.
  rewrite (count_remoteId_converted rid l Hnd Hin).
  rewrite count_remoteId_none; [reflexivity|].
  intros t Ht Hb. apply filter_In in Ht. destruct Ht as [_ Hk].
  apply negb_true_iff in Hk.
  assert (Hex : existsb
            (fun fc => strict_eq (backendId fc) (backendId t) ||
                       (Types.id fc =? Types.id t)%string)
            (map convertToFrontendComment l) = true).
  { apply in_map_iff in Hin. destruct Hin as (r & Hr & Hinr).
    apply existsb_exists. exists (convertToFrontendComment r). split.
    - now apply in_map.
    - rewrite backendId_convert, Hr, Hb, strict_eq_refl. reflexivity. }
  congruence.
Qed.

Lemma loadComments_server_ids_once_witness :
  count_remoteId "c1"
    (comments
       (fst (loadComments (fun _ => "")
               (Responded (mkResponse 200 "OK"
                             (Some [Sample.record_c0; Sample.record_c1]) NoDetail))
               (mkState [convertToFrontendComment Sample.record_c1;
                         Sample.pending] true None)))) = 1.
Proof.
  apply (loadComments_server_ids_once _ _ _ [Sample.record_c0; Sample.record_c1]).
  - reflexivity.
  - repeat constructor; simpl; intuition discriminate.
  - simpl. now right; left.
Defined.

(** X4. A load that fails leaves the comments as they were, ends the
    loading state and reports the failure in [error]: for a non-success
    status other than 404 the message carries the status code and text;
    for a failed request it is the message of what [fetch] threw. *)
Theorem loadComments_failure engine_message st :
  (forall response : Response (list CommentResponse),
     ok response = false -> status response <> 404%Z ->
     loadComments engine_message (Responded response) st =
     ({| comments := comments st; loading := false;
         error := Some ("Error fetching comments: " ++ show (status response) ++
                        " - " ++ statusText response) |},
      [console_error "Error loading comments:"])) /\
  (forall e,
     loadComments engine_message (NetworkFailure e) st =
     ({| comments := comments st; loading := false;
         error := Some (message_of engine_message e) |},
      [console_error "Error loading comments:"])).
Proof.
  split.
  - intros response H Hne. unfold loadComments.
    now rewrite (getCommentsByDashboard_failure response H Hne).
  - reflexivity.
Qed.

Lemma loadComments_failure_witness :
  loadComments (fun _ => "Failed to fetch")
    (Responded (mkResponse 503 "Service Unavailable" None NoDetail))
    (mkState Sample.store_pending true None) =
  (mkState Sample.store_pending false
     (Some "Error fetching comments: 503 - Service Unavailable"),
   [console_error "Error loading comments:"]).
Proof.
  destruct (loadComments_failure (fun _ => "Failed to fetch")
              (mkState Sample.store_pending true None)) as (H & _).
  apply (H (mkResponse 503 "Service Unavailable" None NoDetail)).
  - reflexivity.
  - discriminate.
Defined.

(** X5. A 404 on load is an empty answer: every entity whose [id] does
    not start with ["temp-"] leaves the store, the temporary ones stay in
    their order, and no error is reported. *)
Theorem loadComments_404 engine_message st
  (response : Response (list CommentResponse)) :
  status response = 404%Z ->
  loadComments engine_message (Responded response) st =
  ({| comments :=
        filter (fun c => String.prefix "temp-" (Types.id c)) (comments st);
      loading := false;
      error := error st |}, []).
Proof.
  intro H. unfold loadComments.
  rewrite (getCommentsByDashboard_404 response H). simpl.
  unfold merge_loaded. simpl. f_equal. f_equal.
  apply filter_all. reflexivity.
Qed.

Lemma loadComments_404_witness :
  loadComments (fun _ => "")
    (Responded (mkResponse 404 "Not Found" None NoDetail))
    (mkState [convertToFrontendComment Sample.record_c1; Sample.pending]
             true None) =
  (mkState [Sample.pending] false None, []).
Proof.
  apply (loadComments_404 (fun _ => "")
           (mkState [convertToFrontendComment Sample.record_c1; Sample.pending]
                    true None)
           (mkResponse 404 "Not Found" None NoDetail)).
  reflexivity.
Defined.

Lemma to_int_not_nil z :
  Z.to_int z <> Decimal.Pos Decimal.Nil /\ Z.to_int z <> Decimal.Neg Decimal.Nil.
Proof.
  split; intro H; pose proof (DecimalZ.of_to z) as E; rewrite H in E;
    simpl in E; subst z; discriminate.
Qed.

(** The decimal rendering of integers is injective. *)
Lemma show_inj a b : show a = show b -> a = b.
Proof.
  unfold show. intro H. apply DecimalZ.to_int_inj.
  destruct (to_int_not_nil a) as [Ha1 Ha2].
  destruct (to_int_not_nil b) as [Hb1 Hb2].
  pose proof (NilZero.isi _ Ha1 Ha2) as Ia.
  pose proof (NilZero.isi _ Hb1 Hb2) as Ib.
  rewrite H in Ia. congruence.
Qed.

(** X7. Two temporary comments get the same [id] exactly when they are
    created in the same millisecond. *)
Theorem temporary_ids_collide_iff_same_time
  dashboardId userId now1 now2 name1 name2 x1 y1 x2 y2 prev1 prev2 :
  Types.id (fst (createTemporaryComment dashboardId userId now1 name1 x1 y1 prev1)) =
  Types.id (fst (createTemporaryComment dashboardId userId now2 name2 x2 y2 prev2))
  <-> now1 = now2.
Proof.
  simpl. split.
  - intro H. injection H as H. now apply show_inj.
  - now intros ->.
Qed.

(** X6. Cancelling a temporary comment right after creating it gives the
    store back, provided its [id] was not in use. *)
Theorem create_then_cancel dashboardId userId now storedName x y prev :
  (forall c, In c prev -> Types.id c <> "temp-" ++ show now) ->
  cancelTemporaryComment
    (Types.id (fst (createTemporaryComment dashboardId userId now storedName
                      x y prev)))
    (snd (createTemporaryComment dashboardId userId now storedName x y prev)) =
  prev.
Proof.
  intro H. unfold createTemporaryComment, cancelTemporaryComment.
  cbn [fst snd Types.id]. rewrite filter_app. cbn [filter Types.id].
  rewrite String.eqb_refl. cbn [negb]. rewrite app_nil_r.
  apply filter_all. intros c Hc. apply negb_true_iff, String.eqb_neq.
  now apply H.
Qed.

Lemma create_then_cancel_witness :
  cancelTemporaryComment "temp-2"
    (snd (createTemporaryComment "d1" "u1" 2 None 5 6 Sample.store_pending)) =
  Sample.store_pending.
Proof.
  apply (create_then_cancel "d1" "u1" 2%Z None 5%Z 6%Z Sample.store_pending).
  intros c [<-|[]]. discriminate.
Defined.

Lemma map_moved_field {B} (f : CommentDef -> B) id x y prev :
  (forall c, f (moved x y c) = f c) ->
  map f (map (fun c => if (Types.id c =? id)%string then moved x y c else c)
             prev) = map f prev.
Proof.
  intro H. rewrite map_map. apply map_ext. intro c.
  destruct (Types.id c =? id)%string; [apply H | reflexivity].
Qed.

(** The store [updateCommentPosition] leaves, whatever else happens. *)
Lemma updateCommentPosition_store comments id x y net prev :
  fst (fst (fst (updateCommentPosition comments id x y net prev))) =
  map (fun c => if (Types.id c =? id)%string then moved x y c else c) prev.
Proof.
  unfold updateCommentPosition.
  destruct (find _ comments) as [c|]; [|reflexivity].
  destruct (backendId c) as [b|]; [|reflexivity].
  destruct (b =? "")%string; [reflexivity|].
  now destruct (updateCommentCoordinates net).
Qed.

(** X8. Moving a comment never rejects, whatever the network answers, and
    the store it leaves has the same entities in the same order with the
    same [id], [backendId] and [text]; every entity named [id] is at
    [(x, y)] and every other entity is untouched. A failed persistence
    does not undo the move. *)
Theorem updateCommentPosition_moves_in_place comments id x y net prev :
  let result := updateCommentPosition comments id x y net prev in
  let next := fst (fst (fst result)) in
  snd (fst result) = Resolved tt /\
  map Types.id next = map Types.id prev /\
  map backendId next = map backendId prev /\
  map Types.text next = map Types.text prev /\
  (forall i c, nth_error prev i = Some c ->
     exists c', nth_error next i = Some c' /\
       if (Types.id c =? id)%string
       then Types.x c' = Some x /\ Types.y c' = Some y
       else c' = c).
Proof.
  intros result next. split.
  - unfold result, updateCommentPosition.
    destruct (find _ comments) as [c|]; [|reflexivity].
    destruct (backendId c) as [b|]; [|reflexivity].
    destruct (b =? "")%string; [reflexivity|].
    now destruct (updateCommentCoordinates net).
  - unfold next, result. rewrite updateCommentPosition_store.
    repeat split; try (apply map_moved_field; reflexivity).
    intros i c Hc. rewrite nth_error_map, Hc. simpl.
    eexists. split; [reflexivity|].
    destruct (Types.id c =? id)%string; [now split | reflexivity].
Qed.

Lemma updateCommentPosition_moves_in_place_witness :
  snd (fst (updateCommentPosition Sample.store_pending "temp-1" 30 40
              (NetworkFailure TypeError) Sample.store_pending)) = Resolved tt /\
  exists c',
    nth_error
      (fst (fst (fst (updateCommentPosition Sample.store_pending "temp-1" 30 40
                        (NetworkFailure TypeError) Sample.store_pending)))) 0 =
      Some c' /\
    Types.x c' = Some 30%Z /\ Types.y c' = Some 40%Z.
Proof.
  destruct (updateCommentPosition_moves_in_place Sample.store_pending "temp-1"
              30%Z 40%Z (NetworkFailure TypeError) Sample.store_pending)
    as (Hs & _ & _ & _ & Hn).
  split; [exact Hs|].
  destruct (Hn 0 Sample.pending eq_refl) as (c' & Hc & Hxy).
  exists c'. split; [exact Hc | exact Hxy].
Defined.

(** A move is sent to the server exactly when the comment named [id] in
    the callback's store has a non-empty [backendId], and then as a
    coordinates update of that identifier. *)
Lemma updateCommentPosition_request comments id x y net prev :
  snd (fst (fst (updateCommentPosition comments id x y net prev))) =
  match find (fun c => (Types.id c =? id)%string) comments with
  | Some comment =>
      if truthy (backendId comment)
      then Some (PUT_coordinates (or_else (backendId comment) "") x y)
      else None
  | None => None
  end.
Proof.
  unfold updateCommentPosition.
  destruct (find _ comments) as [c|]; [|reflexivity].
  destruct (backendId c) as [b|]; [|reflexivity]. simpl.
  destruct (b =? "")%string; [reflexivity|]. simpl.
  now destruct (updateCommentCoordinates net).
Qed.

Lemma find_first {A} (f : A -> bool) l1 t l2 :
  (forall c, In c l1 -> f c = false) -> f t = true ->
  find f (l1 ++ t :: l2) = Some t.
Proof.
  intros Hn Ht. induction l1 as [|a l IH]; simpl.
  - now rewrite Ht.
  - rewrite (Hn a (or_introl eq_refl)). apply IH.
    intros c Hc. apply Hn. now right.
Qed.

Lemma find_nothing {A} (f : A -> bool) l :
  (forall c, In c l -> f c = false) -> find f l = None.
Proof.
  intro Hn. induction l as [|a l IH]; simpl; [reflexivity|].
  rewrite (Hn a (or_introl eq_refl)). apply IH.
  intros c Hc. apply Hn. now right.
Qed.

(** What a successful save puts in place of the pending record is named,
    locally and remotely, by the identifier of the server record. *)
Lemma saveTemporaryComment_converted comments tempId text storedName
  response record prev comment :
  find (fun c => (Types.id c =? tempId)%string) comments = Some comment ->
  ok response = true -> json_data response = Some record ->
  exists converted,
    Types.id converted = remoteId record /\
    backendId converted = Some (remoteId record) /\
    fst (saveTemporaryComment comments tempId text storedName
           (Responded response) prev) =
    map (fun c => if (Types.id c =? tempId)%string then converted else c) prev.
Proof.
  intros Hfind Hok Hdata. unfold saveTemporaryComment, createComment, json.
  rewrite Hfind, Hok, Hdata. simpl.
  destruct (truthy storedName); eexists;
    (split; [|split; [|reflexivity]]); reflexivity.
Qed.

(** X9. While a comment is pending, updating or deleting it sends
    nothing. Once it is saved, the temporary [id] names nothing any more:
    [updateComment] and [deleteComment] with it send nothing and resolve;
    under the server's identifier they address the server's comment. *)
Theorem saved_comment_is_addressed_by_server_id
  l1 t l2 text storedName response record rid :
  (forall c, In c (l1 ++ l2) -> Types.id c <> Types.id t /\ Types.id c <> rid) ->
  backendId t = None ->
  ok response = true -> json_data response = Some record ->
  remoteId record = rid -> rid <> "" -> rid <> Types.id t ->
  let prev := (l1 ++ t :: l2)%list in
  let store :=
    fst (saveTemporaryComment prev (Types.id t) text storedName
           (Responded response) prev) in
  (forall text' net,
     useComments.updateComment prev (Types.id t) text' net =
     (None, Resolved tt, [])) /\
  (forall net,
     useComments.deleteComment prev (Types.id t) net =
     (None, Resolved tt, [])) /\
  (forall text' net,
     useComments.updateComment store (Types.id t) text' net =
     (None, Resolved tt, [])) /\
  (forall net,
     useComments.deleteComment store (Types.id t) net =
     (None, Resolved tt, [])) /\
  (forall text' net,
     fst (fst (useComments.updateComment store rid text' net)) =
     Some (PUT_comment rid text')) /\
  (forall net,
     fst (fst (useComments.deleteComment store rid net)) =
     Some (DELETE_comment rid)).
Proof.
  intros Hothers Hpending Hok Hdata Hrid Hne Hneq prev store.
  assert (Hl1 : forall c, In c l1 ->
            Types.id c <> Types.id t /\ Types.id c <> rid).
  { intros c Hc. apply Hothers, in_or_app. now left. }
  assert (Hl2 : forall c, In c l2 ->
            Types.id c <> Types.id t /\ Types.id c <> rid).
  { intros c Hc. apply Hothers, in_or_app. now right. }
  assert (Hfind : find (fun c => (Types.id c =? Types.id t)%string) prev = Some t).
  { apply find_first; [|apply String.eqb_refl].
    intros c Hc. apply String.eqb_neq. now destruct (Hl1 c Hc). }
  destruct (saveTemporaryComment_converted prev (Types.id t) text storedName
              response record prev t Hfind Hok Hdata)
    as (converted & Hid & Hb & Hsave).
  rewrite Hrid in Hid, Hb.
  assert (Hstore : store = (l1 ++ converted :: l2)%list).
  { unfold store. rewrite Hsave. unfold prev. apply map_replace_one.
    - apply String.eqb_refl.
    - intros c Hc. apply String.eqb_neq. now destruct (Hothers c Hc). }
  assert (Hstale : find (fun c => (Types.id c =? Types.id t)%string) store = None).
  { rewrite Hstore. apply find_nothing. intros c Hc. apply String.eqb_neq.
    apply in_app_or in Hc. destruct Hc as [Hc|[<-|Hc]].
    - now destruct (Hl1 c Hc).
    - now rewrite Hid.
    - now destruct (Hl2 c Hc). }
  assert (Hnew : find (fun c => (Types.id c =? rid)%string) store = Some converted).
  { rewrite Hstore. apply find_first.
    - intros c Hc. apply String.eqb_neq. now destruct (Hl1 c Hc).
    - rewrite Hid. apply String.eqb_refl. }
  assert (Hrid' : (rid =? "")%string = false) by now apply String.eqb_neq.
  repeat split; intros.
  - unfold useComments.updateComment. now rewrite Hfind, Hpending.
  - unfold useComments.deleteComment. now rewrite Hfind, Hpending.
  - unfold useComments.updateComment. now rewrite Hstale.
  - unfold useComments.deleteComment. now rewrite Hstale.
  - unfold useComments.updateComment. rewrite Hnew, Hb, Hrid'.
    now destruct (CommentsApiService.updateComment net).
  - unfold useComments.deleteComment. rewrite Hnew, Hb, Hrid'.
    now destruct (CommentsApiService.deleteComment net).
Qed.

Lemma saved_comment_is_addressed_witness :
  useComments.updateComment
    (fst (saveTemporaryComment Sample.store_pending "temp-1" "hi" (Some "Ana")
            Sample.created_c1 Sample.store_pending))
    "temp-1" "edited" (NetworkFailure TypeError) =
  (None, Resolved tt, []).
Proof.
  assert (Hothers : forall c, In c ([] ++ []) ->
            Types.id c <> Types.id Sample.pending /\ Types.id c <> "c1")
    by (intros c []).
  assert (Hne : "c1" <> "") by discriminate.
  assert (Hneq : "c1" <> Types.id Sample.pending) by discriminate.
  destruct (saved_comment_is_addressed_by_server_id
              [] Sample.pending [] "hi" (Some "Ana")
              (mkResponse 201 "Created" (Some Sample.record_c1) NoDetail)
              Sample.record_c1 "c1" Hothers eq_refl eq_refl eq_refl eq_refl
              Hne Hneq) as (_ & _ & H & _).
  apply H.
Defined.

End StoreOperations.

(* ================================================================== *)
(** * The chat hook: inbound frames, sending, reconnection, cleanup *)
(* ================================================================== *)

Section ChatHook.
Import Js.
Import useChatWebSocket.

(** X12. Whatever the frame, the chat hook's message handler completes,
    appends at most one message after the ones it found, and leaves the
    socket, the armed timer, the attempt counter and the connected flag as
    they were. *)
Theorem chat_onmessage_appends JSON_parse now data st :
  exists st' effects suffix,
    onmessage JSON_parse now data st = Resolved (st', effects) /\
    messages st' = (messages st ++ suffix)%list /\
    List.length suffix <= 1 /\
    wsRef st' = wsRef st /\
    reconnectTimeoutRef st' = reconnectTimeoutRef st /\
    reconnectAttemptsRef st' = reconnectAttemptsRef st /\
    isConnected st' = isConnected st.
Proof.
  unfold onmessage, onmessage_try.
  destruct (JSON_parse data) as [ev|].
  - destruct ev; do 2 eexists;
      try (exists []; split; [reflexivity|]; simpl;
           rewrite app_nil_r; repeat split; lia);
      (eexists; split; [reflexivity|]; simpl; repeat split; simpl; lia).
  - exists st. eexists. exists []. split; [reflexivity|].
    rewrite app_nil_r. repeat split. simpl. lia.
Qed.

(** X13. A successful open resets the backoff: the next close arms the
    first delay again, 2000 ms on the comment stream and 1000 ms on the
    chat stream, whatever the counter was. *)
Theorem backoff_restarts_after_open :
  (forall refs,
     snd (useCommentsWebSocket.onclose (useCommentsWebSocket.onopen refs)) =
     [setTimeout 2000]) /\
  (forall st, snd (onclose (onopen st)) = [setTimeout 1000]).
Proof. split; reflexivity. Qed.

Lemma backoff_bounds a :
  (0 <= a)%Z -> (1000 <= Z.min (1000 * 2 ^ a) 10000 <= 10000)%Z.
Proof.
  intro H. assert (0 < 2 ^ a)%Z by (apply Z.pow_pos_nonneg; lia). lia.
Qed.

(** X14. With a counter that is not negative, every delay a close arms is
    at least one second (two on the comment stream) and at most ten, and
    a larger counter never gives a shorter delay. *)
Theorem reconnect_delay_bounds :
  (forall refs d,
     (0 <= useCommentsWebSocket.reconnectAttemptsRef refs)%Z ->
     In d (delays (snd (useCommentsWebSocket.onclose refs))) ->
     (2000 <= d <= 10000)%Z) /\
  (forall st d,
     (0 <= reconnectAttemptsRef st)%Z ->
     In d (delays (snd (onclose st))) ->
     (1000 <= d <= 10000)%Z) /\
  (forall st1 st2 d1 d2,
     (0 <= reconnectAttemptsRef st1 <= reconnectAttemptsRef st2)%Z ->
     In d1 (delays (snd (onclose st1))) ->
     In d2 (delays (snd (onclose st2))) ->
     (d1 <= d2)%Z).
Proof.
  split; [|split].
  - intros refs d H Hin.
    destruct (Z.lt_ge_cases (useCommentsWebSocket.reconnectAttemptsRef refs) 5)
      as [Hlt|Hge].
    + rewrite (comments_onclose_arms refs Hlt) in Hin.
      cbn [snd delays] in Hin. destruct Hin as [<-|[]].
      assert (0 < 2 ^ useCommentsWebSocket.reconnectAttemptsRef refs)%Z
        by (apply Z.pow_pos_nonneg; lia).
      rewrite Z.pow_add_r, Z.pow_1_r by lia. lia.
    + rewrite (comments_onclose_gives_up refs Hge) in Hin. contradiction.
  - intros st d H Hin.
    destruct (Z.lt_ge_cases (reconnectAttemptsRef st) 5) as [Hlt|Hge].
    + rewrite (chat_onclose_arms st Hlt) in Hin.
      cbn [snd delays] in Hin. destruct Hin as [<-|[]].
      now apply backoff_bounds.
    + rewrite (chat_onclose_gives_up st Hge) in Hin. contradiction.
  - intros st1 st2 d1 d2 H H1 H2.
    destruct (Z.lt_ge_cases (reconnectAttemptsRef st1) 5) as [Hlt1|Hge1];
      [|rewrite (chat_onclose_gives_up st1 Hge1) in H1; contradiction].
    destruct (Z.lt_ge_cases (reconnectAttemptsRef st2) 5) as [Hlt2|Hge2];
      [|rewrite (chat_onclose_gives_up st2 Hge2) in H2; contradiction].
    rewrite (chat_onclose_arms st1 Hlt1) in H1.
    rewrite (chat_onclose_arms st2 Hlt2) in H2.
    cbn [snd delays] in H1, H2.
    destruct H1 as [<-|[]]. destruct H2 as [<-|[]].
    apply Z.min_le_compat_r, Z.mul_le_mono_nonneg_l; [lia|].
    apply Z.pow_le_mono_r; lia.
Qed.

Lemma reconnect_delay_bounds_witness :
  (2000 <= 8000 <= 10000)%Z /\ (1000 <= 4000 <= 10000)%Z.
Proof.
  destruct reconnect_delay_bounds as (Hc & Hh & _). split.
  - apply (Hc (useCommentsWebSocket.mkRefs None None 2) 8000%Z).
    + simpl. lia.
    + now left.
  - apply (Hh (set_reconnectAttemptsRef 2 initial) 4000%Z).
    + simpl. lia.
    + now left.
Defined.

Lemma chat_step_invariant JSON_parse run ev :
  chat_invariant run -> chat_invariant (chat_step JSON_parse run ev).
Proof.
  intro Hinv. pose proof Hinv as [Hb Hp].
  unfold chat_step. cbv zeta.
  destruct (wsRef (hook run)) as [ws|] eqn:E.
  - destruct ev as [| now data | | |].
    + (* socket_opens *)
      destruct (WebSocket.readyState ws) eqn:R; try exact Hinv.
      split; simpl; [lia|]. intro Ht.
      destruct (Hp Ht) as (_ & ws' & E' & R'). congruence.
    + (* socket_message *)
      destruct (WebSocket.readyState ws) eqn:R; try exact Hinv.
      destruct (chat_onmessage_appends JSON_parse now data (hook run))
        as (st' & effects & suffix & Hm & _ & _ & Hw & _ & Ha & _).
      rewrite Hm. split; simpl; rewrite Ha; [exact Hb|].
      rewrite Hw. exact (proj2 Hinv).
    + (* socket_error *)
      destruct (WebSocket.readyState ws) eqn:R; try exact Hinv;
        (split; simpl; [exact Hb | exact (proj2 Hinv)]).
    + (* socket_closes *)
      destruct (WebSocket.readyState ws) eqn:R; try exact Hinv.
      all: destruct (Z.lt_ge_cases (reconnectAttemptsRef (hook run)) 5)
             as [Hlt|Hge];
        [ rewrite chat_onclose_arms by exact Hlt; split; simpl; [lia|];
          intros _; split; [lia|]; eexists; split; reflexivity
        | rewrite chat_onclose_gives_up by exact Hge; split; simpl; [lia|];
          intro Ht; destruct (Hp Ht) as (Hlt & _); lia ].
    + (* timer_fires *)
      destruct (timer_pending run) eqn:T; [|exact Hinv].
      destruct (Hp eq_refl) as (Hlt & _).
      split; simpl; [lia | discriminate].
  - destruct ev as [| now data | | |]; try exact Hinv.
    destruct (timer_pending run) eqn:T; [|exact Hinv].
    destruct (Hp eq_refl) as (_ & ws' & E' & _). discriminate.
Qed.

(** X15. However the browser's events interleave, the chat hook's attempt
    counter stays between 0 and 5, and a timer is armed only while the
    counter is below 5 and the socket is closed. *)
Theorem chat_attempts_bounded JSON_parse events :
  let run := fold_left (chat_step JSON_parse) events chat_started in
  (0 <= reconnectAttemptsRef (hook run) <= 5)%Z /\
  (timer_pending run = true ->
     (reconnectAttemptsRef (hook run) < 5)%Z /\
     exists ws, wsRef (hook run) = Some ws /\
                WebSocket.readyState ws = WebSocket.CLOSED).
Proof.
  assert (H : forall events run,
    chat_invariant run ->
    chat_invariant (fold_left (chat_step JSON_parse) events run)).
  { clear events. induction events as [|ev l IH]; intros run Hi; [exact Hi|].
    simpl. apply IH. now apply chat_step_invariant. }
  apply (H events chat_started). split; simpl; [lia | discriminate].
Qed.

Lemma chat_attempts_bounded_witness :
  (0 <= useChatWebSocket.reconnectAttemptsRef
          (hook (fold_left (chat_step parse_chat_sample)
                   [socket_opens; socket_closes; timer_fires; socket_closes;
                    timer_fires; socket_error; socket_closes]
                   chat_started)) <= 5)%Z.
Proof.
  exact (proj1 (chat_attempts_bounded parse_chat_sample
                  [socket_opens; socket_closes; timer_fires; socket_closes;
                   timer_fires; socket_error; socket_closes])).
Defined.

(** X16. Every handler of the comment stream keeps its attempt counter
    between 0 and 5, in whatever order they are called. *)
Theorem comments_attempts_bounded calls :
  let refs := fold_left comments_step calls useCommentsWebSocket.initial in
  (0 <= useCommentsWebSocket.reconnectAttemptsRef refs <= 5)%Z.
Proof.
  assert (H : forall calls refs,
    (0 <= useCommentsWebSocket.reconnectAttemptsRef refs <= 5)%Z ->
    (0 <= useCommentsWebSocket.reconnectAttemptsRef
            (fold_left comments_step calls refs) <= 5)%Z).
  { clear calls. induction calls as [|c l IH]; intros refs Hi; [exact Hi|].
    simpl. apply IH. destruct c; simpl; try exact Hi; try lia.
    destruct (Z.lt_ge_cases (useCommentsWebSocket.reconnectAttemptsRef refs) 5)
      as [Hlt|Hge].
    - rewrite (comments_onclose_arms refs Hlt). simpl. lia.
    - rewrite (comments_onclose_gives_up refs Hge). simpl. lia. }
  apply H. simpl. lia.
Qed.


(** X18. A history answer replaces the message list by its mapping, entry
    by entry in the same order: text and sender are kept and the type is
    [system] exactly for ["system"]. A failed request, a non-success
    status or a body that is not JSON leaves the state as it was. *)
Theorem loadHistory_result st :
  (forall response l,
     Http.ok response = true -> Http.json_data response = Some (Some l) ->
     let st' := fst (loadHistory (Http.Responded response) st) in
     List.length (messages st') = List.length l /\
     forall i h, nth_error l i = Some h ->
       exists m, nth_error (messages st') i = Some m /\
         id m = h_id h /\ user_id m = h_user_id h /\
         username m = h_username h /\ message m = h_content h /\
         timestamp m = h_timestamp h /\
         (message_type m = system <-> h_message_type h = "system")) /\
  (forall response,
     Http.ok response = false \/ Http.json_data response = None ->
     fst (loadHistory (Http.Responded response) st) = st) /\
  (forall e, fst (loadHistory (Http.NetworkFailure e) st) = st).
Proof.
  split; [|split].
  - intros response l Hok Hdata st'. unfold st', loadHistory, Http.json.
    rewrite Hok, Hdata. simpl. split; [apply length_map|].
    intros i h Hi. rewrite nth_error_map, Hi. simpl. eexists.
    split; [reflexivity|]. repeat split; simpl.
    + destruct (String.eqb_spec (h_message_type h) "system");
        [easy | discriminate].
    + intros ->. reflexivity.
  - intros response [H|H]; unfold loadHistory, Http.json.
    + now rewrite H.
    + rewrite H. now destruct (Http.ok response).
  - reflexivity.
Qed.

Lemma loadHistory_result_witness :
  List.length
    (messages
       (fst (loadHistory
               (Http.Responded
                  (Http.mkResponse 200 "OK"
                     (Some (Some [mkHistoryMessage "m1" "u1" "Ana" "hello"
                                    "2025-01-01T00:00:00Z" "text"]))
                     Http.NoDetail))
               initial))) = 1 /\
  fst (loadHistory
         (Http.Responded
            (Http.mkResponse 500 "Internal Server Error" None Http.NoDetail))
         chat_connected) = chat_connected.
Proof.
  destruct (loadHistory_result initial) as (H1 & _).
  destruct (loadHistory_result chat_connected) as (_ & H2 & _).
  split.
  - destruct (H1 (Http.mkResponse 200 "OK"
                    (Some (Some [mkHistoryMessage "m1" "u1" "Ana" "hello"
                                   "2025-01-01T00:00:00Z" "text"]))
                    Http.NoDetail)
                 [mkHistoryMessage "m1" "u1" "Ana" "hello"
                    "2025-01-01T00:00:00Z" "text"] eq_refl eq_refl)
      as [Hlen _].
    exact Hlen.
  - apply H2. now left.
Defined.

(** X19. Join and leave frames do not patch the presence list: they ask
    for a refetch, and no other frame does. Only a [users_list] frame
    writes the list from the stream. The refetch replaces the list by the
    [users] of the answer, the empty list when it has none, and leaves it
    alone when the request fails, the status is not a success or the body
    is not JSON. *)
Theorem presence_is_refetched JSON_parse now data st :
  (forall st' effects,
     onmessage JSON_parse now data st = Resolved (st', effects) ->
     (In fetchConnectedUsers effects <->
      exists n t, JSON_parse data = Some (user_joined n t) \/
                  JSON_parse data = Some (user_left n t)) /\
     (connectedUsers st' = connectedUsers st \/
      exists l, JSON_parse data = Some (users_list l) /\
                connectedUsers st' = l)) /\
  (forall response payload,
     Http.ok response = true -> Http.json_data response = Some payload ->
     connectedUsers
       (fst (fetchConnectedUsers_settled (Http.Responded response) st)) =
     match users payload with Some l => l | None => [] end) /\
  (forall response,
     Http.ok response = false \/ Http.json_data response = None ->
     fst (fetchConnectedUsers_settled (Http.Responded response) st) = st) /\
  (forall e,
     fst (fetchConnectedUsers_settled (Http.NetworkFailure e) st) = st).
Proof.
  split; [|split; [|split]].
  - intros st' effects. unfold onmessage, onmessage_try.
    destruct (JSON_parse data) as [ev|].
    + destruct ev; intro H; injection H as <- <-; simpl; split;
        try (now left);
        try (split; [intros [H|[]]; discriminate
                    | intros (n & t & [H|H]); discriminate]);
        try (split; [intros []
                    | intros (n & t & [H|H]); discriminate]).
      * split; [intros _; eauto | intros _; now left].
      * split; [intros _; eauto | intros _; now left].
      * right. eauto.
    + intro H. injection H as <- <-. split; [|now left].
      split; [intros [H|[]]; discriminate
             | intros (n & t & [H|H]); discriminate].
  - intros response payload Hok Hdata.
    unfold fetchConnectedUsers_settled, Http.json. now rewrite Hok, Hdata.
  - intros response [H|H]; unfold fetchConnectedUsers_settled, Http.json.
    + now rewrite H.
    + rewrite H. now destruct (Http.ok response).
  - reflexivity.
Qed.

Lemma presence_is_refetched_witness :
  connectedUsers
    (fst (fetchConnectedUsers_settled
            (Http.Responded
               (Http.mkResponse 200 "OK"
                  (Some (mkUsersPayload
                           (Some [mkConnectedUser "u1" "Ana" online])))
                  Http.NoDetail))
            chat_connected)) =
  [mkConnectedUser "u1" "Ana" online].
Proof.
  destruct (presence_is_refetched (fun _ => None) 0%Z "" chat_connected)
    as (_ & H & _).
  exact (H (Http.mkResponse 200 "OK"
              (Some (mkUsersPayload (Some [mkConnectedUser "u1" "Ana" online])))
              Http.NoDetail)
           (mkUsersPayload (Some [mkConnectedUser "u1" "Ana" online]))
           eq_refl eq_refl).
Defined.

(** X20. After the cleanup the hook holds no socket: [sendMessage] fails
    with ["Not connected to chat"] and transmits nothing, and a second
    cleanup closes nothing and changes nothing. The cleanup closes the
    socket the hook held. *)
Theorem cleanup_releases_the_socket st :
  let st' := fst (fst (cleanup st)) in
  snd (fst (cleanup st)) = option_map WebSocket.close (wsRef st) /\
  wsRef st' = None /\
  (forall message,
     sendMessage message st' =
     Resolved (false, (setError (Some "Not connected to chat") st', []))) /\
  fst (cleanup st') = (st', None).
Proof.
  unfold cleanup. destruct (wsRef st) as [ws|] eqn:E; simpl.
  - repeat split.
  - rewrite E. repeat split; try exact E.
    intro message. unfold sendMessage. now rewrite E.
Qed.

(** X21. Closing the socket on cleanup does not stop the reconnection:
    when the close event of that socket arrives with fewer than 5 attempts
    counted, [onclose] arms a timer as for any other close, and the
    timer's callback opens a new socket. This holds for [disconnect] of
    the comment stream and for the cleanup of the chat stream. *)
Theorem close_after_cleanup_reconnects :
  (forall refs,
     (useCommentsWebSocket.reconnectAttemptsRef refs < 5)%Z ->
     let closed :=
       useCommentsWebSocket.onclose
         (fst (useCommentsWebSocket.disconnect refs)) in
     delays (snd closed) =
       [Z.min (1000 * 2 ^ (useCommentsWebSocket.reconnectAttemptsRef refs + 1))
              10000] /\
     useCommentsWebSocket.wsRef (useCommentsWebSocket.ontimeout (fst closed)) =
       Some WebSocket.new) /\
  (forall st,
     (reconnectAttemptsRef st < 5)%Z ->
     let closed := onclose (fst (fst (cleanup st))) in
     delays (snd closed) =
       [Z.min (1000 * 2 ^ reconnectAttemptsRef st) 10000] /\
     wsRef (ontimeout (fst closed)) = Some WebSocket.new).
Proof.
  split.
  - intros refs H closed. unfold closed.
    rewrite comments_onclose_arms by exact H. now split.
  - intros st H closed. unfold closed.
    assert (Ha : reconnectAttemptsRef (fst (fst (cleanup st))) =
                 reconnectAttemptsRef st)
      by (unfold cleanup; now destruct (wsRef st)).
    rewrite chat_onclose_arms by (rewrite Ha; exact H).
    rewrite Ha. now split.
Qed.

Lemma close_after_cleanup_reconnects_witness :
  delays
    (snd (useCommentsWebSocket.onclose
            (fst (useCommentsWebSocket.disconnect comments_connected)))) =
    [2000%Z] /\
  delays (snd (onclose (fst (fst (cleanup chat_connected))))) = [1000%Z].
Proof.
  destruct close_after_cleanup_reconnects as (Hc & Hh). split.
  - apply (Hc comments_connected). simpl. lia.
  - apply (Hh chat_connected). simpl. lia.
Defined.

End ChatHook.

(* ================================================================== *)
(** * The chat service: subscribers, inbound frames, sending *)
(* ================================================================== *)

Section ChatService.
Import Js.
Import ChatApiService.

Lemma filter_app_one (h : Handler) l :
  ~ In h l ->
  filter (fun h' => negb (h' =? h)%nat) (l ++ [h]) = l.
Proof.
  intro H. rewrite filter_app. simpl. rewrite Nat.eqb_refl. simpl.
  rewrite app_nil_r. induction l as [|a l IH]; [reflexivity|]. simpl.
  destruct (Nat.eqb_spec a h) as [->|Hne].
  - exfalso. apply H. now left.
  - simpl. f_equal. apply IH. intro Hin. apply H. now right.
Qed.

(** X22. Once a message handler is removed, no inbound frame reaches it,
    however often it had been registered; the other handlers are called
    as before, in the same order. Registering a handler that was not
    subscribed and removing it again gives the subscriber lists back. *)
Theorem removed_handler_is_not_called JSON_parse data handler subs :
  let calls := fst (onmessage JSON_parse data subs) in
  let calls' :=
    fst (onmessage JSON_parse data (removeMessageHandler handler subs)) in
  (forall m, ~ In (message_call handler m) calls') /\
  calls' =
    filter (fun c => match c with
                     | message_call h _ => negb (h =? handler)%nat
                     | _ => true
                     end) calls /\
  (~ In handler (messageHandlers subs) ->
   removeMessageHandler handler (onMessage handler subs) = subs).
Proof.
  intros calls calls'. split; [|split].
  - intros m Hin. unfold calls', onmessage in Hin.
    destruct (JSON_parse data) as [[m'| |t]|]; simpl in Hin;
      try contradiction.
    + unfold notifyMessageHandlers in Hin. apply in_map_iff in Hin.
      destruct Hin as (h & Hh & Hin). injection Hh as -> _.
      simpl in Hin. apply filter_In in Hin. destruct Hin as [_ Hin].
      now rewrite Nat.eqb_refl in Hin.
    + unfold notifyMessagesClearedHandlers in Hin. apply in_map_iff in Hin.
      destruct Hin as (h & Hh & _). discriminate.
  - unfold calls, calls', onmessage.
    destruct (JSON_parse data) as [[m'| |t]|]; simpl; try reflexivity.
    + unfold notifyMessageHandlers. simpl.
      induction (messageHandlers subs) as [|a l IH]; [reflexivity|].
      simpl. destruct (a =? handler)%nat; simpl; now rewrite IH.
    + unfold notifyMessagesClearedHandlers. simpl.
      induction (messagesClearedHandlers subs) as [|a l IH]; [reflexivity|].
      simpl. now rewrite <- IH.
  - intro H. destruct subs as [ms cs xs]. unfold removeMessageHandler, onMessage.
    simpl in *. f_equal. now apply filter_app_one.
Qed.

Lemma removed_handler_witness :
  removeMessageHandler 7 (onMessage 7 (mkSubscribers [1; 2] [3] [])) =
  mkSubscribers [1; 2] [3] [].
Proof.
  destruct (removed_handler_is_not_called (fun _ => None) "" 7
              (mkSubscribers [1; 2] [3] [])) as (_ & _ & H).
  apply H. simpl. intuition discriminate.
Defined.

(** X24. A subscriber can tell the two sources of a message apart: every
    message an inbound frame delivers is marked [isServerMessage], and
    every message [sendMessage] delivers is the optimistic copy, not
    marked, with an [id] that starts with ["temp_"] and the text as
    given. *)
Theorem server_and_optimistic_messages_differ :
  (forall JSON_parse data subs h m,
     In (message_call h m) (fst (onmessage JSON_parse data subs)) ->
     isServerMessage m = true) /\
  (forall now random iso message userId username dashboardId svc subs h m,
     In (message_call h m)
        (sendMessage_calls now random iso message userId username
           dashboardId svc subs) ->
     isServerMessage m = false /\
     String.prefix "temp_" (id m) = true /\
     content m = message).
Proof.
  split.
  - intros JSON_parse data subs h m Hin. unfold onmessage in Hin.
    destruct (JSON_parse data) as [[m'| |t]|]; simpl in Hin;
      try contradiction.
    + unfold notifyMessageHandlers in Hin. apply in_map_iff in Hin.
      destruct Hin as (h' & Hh & _). now injection Hh as _ <-.
    + unfold notifyMessagesClearedHandlers in Hin. apply in_map_iff in Hin.
      destruct Hin as (h' & Hh & _). discriminate.
  - intros now random iso message userId username dashboardId svc subs h m Hin.
    unfold sendMessage_calls, sendMessage in Hin.
    destruct (ws svc) as [w|]; [|contradiction].
    destruct (WebSocket.readyState w) eqn:R; simpl in Hin;
      try contradiction.
    unfold WebSocket.send in Hin. rewrite R in Hin. simpl in Hin.
    rewrite app_nil_r in Hin. unfold notifyMessageHandlers in Hin.
    apply in_map_iff in Hin. destruct Hin as (h' & Hh & _).
    injection Hh as _ <-. split; [|split]; try reflexivity.
    cbn [id]. destruct (show now ++ String "_" random); reflexivity.
Qed.

Lemma server_and_optimistic_witness :
  isServerMessage
    (mkChatMessage "temp_1_0.5" "u1" "Ana" " " "text"
       "2025-01-01T00:00:00.000Z" "d1" None false) = false.
Proof.
  destruct server_and_optimistic_messages_differ as (_ & H).
  apply (H 1%Z "0.5" "2025-01-01T00:00:00.000Z" " " "u1" "Ana" "d1"
           (mkService (Some (WebSocket.opened WebSocket.new)))
           (mkSubscribers [4] [] []) 4).
  now left.
Defined.

(** X23. While its socket is [OPEN] the service sends whatever it is
    given, blank or not and untrimmed: one frame whose [content] is the
    argument goes on the wire, and every message handler is called once,
    in registration order, with one optimistic message. Otherwise nothing
    is sent and nobody is called. *)
Theorem service_sendMessage_sends_verbatim
  now random iso message userId username dashboardId svc subs :
  (isConnected svc = true ->
   exists w w' m,
     ws svc = Some w /\
     sendMessage now random iso message userId username dashboardId svc =
       Resolved (tt, ({| ws := Some w' |}, [m], [])) /\
     WebSocket.wire w' =
       (WebSocket.wire w ++
        [JObj [("type", JStr "chat_message");
               ("data", JObj [("content", JStr message);
                              ("message_type", JStr "text")])]])%list /\
     sendMessage_calls now random iso message userId username dashboardId
       svc subs = map (fun h => message_call h m) (messageHandlers subs)) /\
  (isConnected svc = false ->
   sendMessage_calls now random iso message userId username dashboardId
     svc subs = [] /\
   exists effects,
     sendMessage now random iso message userId username dashboardId svc =
     Resolved (tt, (svc, [], effects))).
Proof.
  unfold isConnected, sendMessage_calls, sendMessage. split.
  - destruct (ws svc) as [w|]; [|discriminate].
    destruct (WebSocket.readyState w) eqn:R; try discriminate. intros _.
    unfold WebSocket.send. rewrite R. simpl.
    do 3 eexists. split; [reflexivity|]. split; [reflexivity|].
    split; [reflexivity|]. now rewrite app_nil_r.
  - destruct (ws svc) as [w|];
      [|intros _; split; [reflexivity | eexists; reflexivity]].
    destruct (WebSocket.readyState w) eqn:R; try discriminate;
      intros _; (split; [reflexivity | eexists; reflexivity]).
Qed.

Lemma service_sendMessage_witness :
  sendMessage_calls 1 "0.5" "2025-01-01T00:00:00.000Z" "  " "u1" "Ana" "d1"
    (mkService (Some (WebSocket.opened WebSocket.new)))
    (mkSubscribers [4; 5] [] []) =
  map (fun h => message_call h
         (mkChatMessage "temp_1_0.5" "u1" "Ana" "  " "text"
            "2025-01-01T00:00:00.000Z" "d1" None false)) [4; 5].
Proof.
  destruct (service_sendMessage_sends_verbatim 1%Z "0.5"
              "2025-01-01T00:00:00.000Z" "  " "u1" "Ana" "d1"
              (mkService (Some (WebSocket.opened WebSocket.new)))
              (mkSubscribers [4; 5] [] [])) as (H & _).
  destruct (H eq_refl) as (w & w' & m & _ & Hs & _ & Hc).
  injection Hs as _ <-. exact Hc.
Defined.

End ChatService.

(* ================================================================== *)
(** * The comment wrappers: conversions and success *)
(* ================================================================== *)

Section CommentWrappers.
Import Js Http Types CommentsApiService.

(** X25. Converting a server record to the front end and back gives the
    request that would recreate it: the same text, the first two
    coordinates, each as a template literal renders a number, joined by a
    comma, and the author's name, ["Usuario"] when the server sent none. *)
Theorem convert_round_trip Number_toString r x y rest :
  coordinates r = x :: y :: rest ->
  convertToBackendComment Number_toString (convertToFrontendComment r) =
  {| req_content := content r;
     req_coordinates := Number_toString x ++ "," ++ Number_toString y;
     req_user_name := Some (or_else (user_name r) "Usuario") |}.
Proof.
  intro H. unfold convertToBackendComment, convertToFrontendComment.
  simpl. now rewrite H.
Qed.

(** The record [c1] lies at (10, 20), which render as ["10"] and ["20"]. *)
Lemma convert_round_trip_witness :
  convertToBackendComment show (convertToFrontendComment Sample.record_c1) =
  {| req_content := "hi"; req_coordinates := "10,20";
     req_user_name := Some "Ana" |}.
Proof.
  apply (convert_round_trip show Sample.record_c1 10%Z 20%Z []). reflexivity.
Defined.

(** X26. A comment wrapper resolves exactly when the status is a success
    and the body is JSON, and then with that body; the list call also
    resolves, to the empty list, on a 404; [deleteComment] resolves on any
    success, whatever the body. When the request itself fails, every
    wrapper rejects with what [fetch] threw. *)
Theorem wrappers_resolve_iff :
  (forall (response : Response CommentResponse) a,
     createComment (Responded response) = Resolved a <->
     ok response = true /\ json_data response = Some a) /\
  (forall (response : Response CommentResponse) a,
     updateComment (Responded response) = Resolved a <->
     ok response = true /\ json_data response = Some a) /\
  (forall (response : Response CommentResponse) a,
     updateCommentCoordinates (Responded response) = Resolved a <->
     ok response = true /\ json_data response = Some a) /\
  (forall (response : Response (list CommentResponse)) l,
     getCommentsByDashboard (Responded response) = Resolved l <->
     (ok response = true /\ json_data response = Some l) \/
     (status response = 404%Z /\ l = [])) /\
  (forall response : Response unit,
     deleteComment (Responded response) = Resolved tt <->
     ok response = true) /\
  (forall e,
     createComment (NetworkFailure e) = Rejected e /\
     updateComment (NetworkFailure e) = Rejected e /\
     updateCommentCoordinates (NetworkFailure e) = Rejected e /\
     getCommentsByDashboard (NetworkFailure e) = Rejected e /\
     deleteComment (NetworkFailure e) = Rejected e).
Proof.
  repeat apply conj.
  - intros response a. unfold createComment, json.
    destruct (ok response); simpl.
    + destruct (json_data response); split; intro H;
        try discriminate; try (destruct H; discriminate).
      * injection H as ->. now split.
      * destruct H as [_ H]. now injection H as ->.
    + split; [discriminate | intros [H _]; discriminate].
  - intros response a. unfold updateComment, json.
    destruct (ok response); simpl.
    + destruct (json_data response); split; intro H;
        try discriminate; try (destruct H; discriminate).
      * injection H as ->. now split.
      * destruct H as [_ H]. now injection H as ->.
    + split; [discriminate | intros [H _]; discriminate].
  - intros response a. unfold updateCommentCoordinates, json.
    destruct (ok response); simpl.
    + destruct (json_data response); split; intro H;
        try discriminate; try (destruct H; discriminate).
      * injection H as ->. now split.
      * destruct H as [_ H]. now injection H as ->.
    + split; [discriminate | intros [H _]; discriminate].
  - intros response l. unfold getCommentsByDashboard, json.
    destruct (ok response) eqn:Hok; simpl.
    + destruct (json_data response); split; intro H.
      * injection H as ->. now left.
      * destruct H as [[_ H]|[H _]]; [now injection H as ->|].
        rewrite (not_ok_404 response H) in Hok. discriminate.
      * discriminate.
      * destruct H as [[_ H]|[H _]]; [discriminate|].
        rewrite (not_ok_404 response H) in Hok. discriminate.
    + destruct (Z.eqb_spec (status response) 404); split; intro H.
      * injection H as <-. now right.
      * destruct H as [[H _]|[_ ->]]; [discriminate | reflexivity].
      * discriminate.
      * destruct H as [[H _]|[H _]]; [discriminate | contradiction].
  - intros response. unfold deleteComment.
    destruct (ok response); simpl; split; congruence.
  - intro e. repeat split.
Qed.

End CommentWrappers.
